(** * SeguroLluvia transaction handler (segurolluvia_handler.js)

    A shallow embedding of the Sawtooth transaction processor for the
    rain-insurance family [segurolluvia], and the properties of its
    validation and state-transition code.

    Conventions of the embedding.
    - JavaScript values that a CBOR payload field can hold are the scalars
      [jsval]: undefined, null, booleans, numbers and strings.  Numbers are
      the integers (exact in a double up to 2^53) and NaN; doubles with a
      fractional part, infinities, arrays, byte strings and nested maps are
      outside the modelled fragment.
    - Strings are sequences of 8-bit characters.  For ASCII text the number
      of characters is the JavaScript [length] and the characters are the
      UTF-8 bytes fed to the digest.
    - Objects are finite maps of their own properties ([gmap string _]);
      properties inherited from [Object.prototype] are not modelled.
    - A promise is modelled by its outcome: [Ok] (resolved) or [Throw]
      (rejected with the thrown exception).
    - The source declares [let parsed] twice in the body of one arrow
      function (lines 185 and 228), which a JavaScript engine refuses at
      load time.  The embedding reads the second declaration as a fresh
      binding, which is what every use of the name needs. *)

From Stdlib Require Import ZArith Ascii String List Lia.
From stdpp Require Import base option gmap strings pretty.
Import ListNotations.

Open Scope string_scope.
Open Scope Z_scope.

(** ** SHA-512 (FIPS 180-4), the digest behind [crypto.createHash('sha512')] *)

Module SHA512.

Definition mask64 : Z := 0xffffffffffffffff.

Definition add64 (x y : Z) : Z := Z.land (x + y) mask64.

Definition rotr (n x : Z) : Z :=
  Z.land (Z.lor (Z.shiftr x n) (Z.shiftl x (64 - n))) mask64.

Definition shr (n x : Z) : Z := Z.shiftr x n.

Definition Ch (x y z : Z) : Z :=
  Z.lxor (Z.land x y) (Z.land (Z.lxor x mask64) z).

Definition Maj (x y z : Z) : Z :=
  Z.lxor (Z.lxor (Z.land x y) (Z.land x z)) (Z.land y z).

Definition Sigma0 (x : Z) : Z := Z.lxor (Z.lxor (rotr 28 x) (rotr 34 x)) (rotr 39 x).
Definition Sigma1 (x : Z) : Z := Z.lxor (Z.lxor (rotr 14 x) (rotr 18 x)) (rotr 41 x).
Definition sigma0 (x : Z) : Z := Z.lxor (Z.lxor (rotr 1 x) (rotr 8 x)) (shr 7 x).
Definition sigma1 (x : Z) : Z := Z.lxor (Z.lxor (rotr 19 x) (rotr 61 x)) (shr 6 x).

Definition K : list Z :=
  [0x428a2f98d728ae22; 0x7137449123ef65cd; 0xb5c0fbcfec4d3b2f; 0xe9b5dba58189dbbc;
   0x3956c25bf348b538; 0x59f111f1b605d019; 0x923f82a4af194f9b; 0xab1c5ed5da6d8118;
   0xd807aa98a3030242; 0x12835b0145706fbe; 0x243185be4ee4b28c; 0x550c7dc3d5ffb4e2;
   0x72be5d74f27b896f; 0x80deb1fe3b1696b1; 0x9bdc06a725c71235; 0xc19bf174cf692694;
   0xe49b69c19ef14ad2; 0xefbe4786384f25e3; 0x0fc19dc68b8cd5b5; 0x240ca1cc77ac9c65;
   0x2de92c6f592b0275; 0x4a7484aa6ea6e483; 0x5cb0a9dcbd41fbd4; 0x76f988da831153b5;
   0x983e5152ee66dfab; 0xa831c66d2db43210; 0xb00327c898fb213f; 0xbf597fc7beef0ee4;
   0xc6e00bf33da88fc2; 0xd5a79147930aa725; 0x06ca6351e003826f; 0x142929670a0e6e70;
   0x27b70a8546d22ffc; 0x2e1b21385c26c926; 0x4d2c6dfc5ac42aed; 0x53380d139d95b3df;
   0x650a73548baf63de; 0x766a0abb3c77b2a8; 0x81c2c92e47edaee6; 0x92722c851482353b;
   0xa2bfe8a14cf10364; 0xa81a664bbc423001; 0xc24b8b70d0f89791; 0xc76c51a30654be30;
   0xd192e819d6ef5218; 0xd69906245565a910; 0xf40e35855771202a; 0x106aa07032bbd1b8;
   0x19a4c116b8d2d0c8; 0x1e376c085141ab53; 0x2748774cdf8eeb99; 0x34b0bcb5e19b48a8;
   0x391c0cb3c5c95a63; 0x4ed8aa4ae3418acb; 0x5b9cca4f7763e373; 0x682e6ff3d6b2b8a3;
   0x748f82ee5defb2fc; 0x78a5636f43172f60; 0x84c87814a1f0ab72; 0x8cc702081a6439ec;
   0x90befffa23631e28; 0xa4506cebde82bde9; 0xbef9a3f7b2c67915; 0xc67178f2e372532b;
   0xca273eceea26619c; 0xd186b8c721c0c207; 0xeada7dd6cde0eb1e; 0xf57d4f7fee6ed178;
   0x06f067aa72176fba; 0x0a637dc5a2c898a6; 0x113f9804bef90dae; 0x1b710b35131c471b;
   0x28db77f523047d84; 0x32caab7b40c72493; 0x3c9ebe0a15c9bebc; 0x431d67c49c100d4c;
   0x4cc5d4becb3e42b6; 0x597f299cfc657e2a; 0x5fcb6fab3ad6faec; 0x6c44198c4a475817].

(** The eight working variables, also the running hash value. *)
Record hash := Hash { ha : Z; hb : Z; hc : Z; hd : Z; he : Z; hf : Z; hg : Z; hh : Z }.

Definition H0 : hash :=
  Hash 0x6a09e667f3bcc908 0xbb67ae8584caa73b 0x3c6ef372fe94f82b 0xa54ff53a5f1d36f1
       0x510e527fade682d1 0x9b05688c2b3e6c1f 0x1f83d9abfb41bd6b 0x5be0cd19137e2179.

(** Padding: a 1 bit, zeros up to 112 mod 128 bytes, the bit length on 16 bytes. *)
Fixpoint be_bytes (n : nat) (x : Z) : list Z :=
  match n with
  | O => []
  | S k => Z.land (Z.shiftr x (8 * Z.of_nat k)) 255 :: be_bytes k x
  end.

Definition pad (msg : list Z) : list Z :=
  let len := Z.of_nat (List.length msg) in
  let zeros := Z.to_nat ((111 - len) mod 128) in
  msg ++ 128 :: List.repeat 0 zeros ++ be_bytes 16 (8 * len).

Fixpoint be_word (bs : list Z) (acc : Z) : Z :=
  match bs with
  | [] => acc
  | b :: r => be_word r (Z.lor (Z.shiftl acc 8) b)
  end.

(** Cut a byte list into words of eight bytes ([fuel] bounds the word count). *)
Fixpoint words (fuel : nat) (bs : list Z) : list Z :=
  match fuel, bs with
  | S k, _ :: _ => be_word (List.firstn 8 bs) 0 :: words k (List.skipn 8 bs)
  | _, _ => []
  end.

(** Message schedule; [w] holds the words so far, the latest first. *)
Fixpoint schedule (n : nat) (w : list Z) : list Z :=
  match n with
  | O => w
  | S k =>
      let wt := add64 (add64 (sigma1 (List.nth 1 w 0)) (List.nth 6 w 0))
                      (add64 (sigma0 (List.nth 14 w 0)) (List.nth 15 w 0)) in
      schedule k (wt :: w)
  end.

Definition round (s : hash) (kw : Z * Z) : hash :=
  let t1 := add64 (add64 (add64 (hh s) (Sigma1 (he s)))
                         (add64 (Ch (he s) (hf s) (hg s)) (fst kw))) (snd kw) in
  let t2 := add64 (Sigma0 (ha s)) (Maj (ha s) (hb s) (hc s)) in
  Hash (add64 t1 t2) (ha s) (hb s) (hc s) (add64 (hd s) t1) (he s) (hf s) (hg s).

Definition compress (h : hash) (block : list Z) : hash :=
  let w := List.rev (schedule 64 (List.rev block)) in
  let s := List.fold_left round (List.combine K w) h in
  Hash (add64 (ha h) (ha s)) (add64 (hb h) (hb s)) (add64 (hc h) (hc s))
       (add64 (hd h) (hd s)) (add64 (he h) (he s)) (add64 (hf h) (hf s))
       (add64 (hg h) (hg s)) (add64 (hh h) (hh s)).

Fixpoint blocks (fuel : nat) (ws : list Z) (h : hash) : hash :=
  match fuel, ws with
  | S k, _ :: _ => blocks k (List.skipn 16 ws) (compress h (List.firstn 16 ws))
  | _, _ => h
  end.

Definition digest (msg : list Z) : hash :=
  let p := pad msg in
  blocks (List.length p) (words (List.length p) p) H0.

(** [digest('hex')]: sixteen lower-case hexadecimal digits per word. *)
Definition hex_digit (d : Z) : ascii :=
  if d <? 10 then ascii_of_N (Z.to_N (48 + d)) else ascii_of_N (Z.to_N (87 + d)).

Definition hex_word (w : Z) : list ascii :=
  List.map (fun i => hex_digit (Z.land (Z.shiftr w (4 * Z.of_nat (15 - i))) 15))
           (List.seq 0 16).

Definition hex (h : hash) : string :=
  string_of_list_ascii
    (List.concat (List.map hex_word [ha h; hb h; hc h; hd h; he h; hf h; hg h; hh h])).

Definition bytes_of_string (s : string) : list Z :=
  List.map (fun c => Z.of_N (N_of_ascii c)) (list_ascii_of_string s).

Definition sha512_hex (s : string) : string := hex (digest (bytes_of_string s)).

End SHA512.

(** ** JavaScript values and the coercions the handler relies on *)

Inductive number :=
| NaN
| Int (z : Z).

Inductive jsval :=
| JUndefined
| JNull
| JBool (b : bool)
| JNum (n : number)
| JStr (s : string).

(** Outcome of a computation that may throw. *)
Inductive exn :=
| InvalidTransaction (message : string)
| InternalError (message : string)
| TypeError (message : string).

Inductive result (A : Type) :=
| Ok (a : A)
| Throw (e : exn).
Arguments Ok {A} a.
Arguments Throw {A} e.

#[global] Instance result_ret : MRet result := fun A a => Ok a.
#[global] Instance result_bind : MBind result := fun A B f r =>
  match r with
  | Ok a => f a
  | Throw e => Throw e
  end.

Module JS.

(** [!x] is [negb (truthy x)]. *)
Definition truthy (v : jsval) : bool :=
  match v with
  | JUndefined | JNull => false
  | JBool b => b
  | JNum NaN => false
  | JNum (Int z) => negb (z =? 0)
  | JStr s => negb (String.eqb s EmptyString)
  end.

(** [x === null || x === undefined] *)
Definition nullish (v : jsval) : bool :=
  match v with
  | JUndefined | JNull => true
  | _ => false
  end.

Definition num_eq (a b : number) : bool :=
  match a, b with
  | Int x, Int y => x =? y
  | _, _ => false
  end.

Definition num_lt (a b : number) : bool :=
  match a, b with
  | Int x, Int y => x <? y
  | _, _ => false
  end.

Definition num_add (a b : number) : number :=
  match a, b with
  | Int x, Int y => Int (x + y)
  | _, _ => NaN
  end.

Definition num_sub (a b : number) : number :=
  match a, b with
  | Int x, Int y => Int (x - y)
  | _, _ => NaN
  end.

Definition num_neg (a : number) : number :=
  match a with
  | Int x => Int (- x)
  | NaN => NaN
  end.

(** [x === y] *)
Definition strict_eq (x y : jsval) : bool :=
  match x, y with
  | JUndefined, JUndefined => true
  | JNull, JNull => true
  | JBool a, JBool b => Bool.eqb a b
  | JNum a, JNum b => num_eq a b
  | JStr a, JStr b => String.eqb a b
  | _, _ => false
  end.

(** White space and digits of the numeric grammars. *)
Definition is_space (c : ascii) : bool :=
  let n := nat_of_ascii c in
  ((9 <=? n) && (n <=? 13) || (n =? 32))%nat.

Fixpoint trim_start (s : string) : string :=
  match s with
  | String c r => if is_space c then trim_start r else s
  | EmptyString => s
  end.

Definition trim (s : string) : string :=
  String.rev (trim_start (String.rev (trim_start s))).

(** Value of [c] as a digit in [radix], if it is one. *)
Definition digit_of (radix : Z) (c : ascii) : option Z :=
  let n := Z.of_nat (nat_of_ascii c) in
  let d := if (48 <=? n) && (n <=? 57) then n - 48
           else if (97 <=? n) && (n <=? 122) then n - 87
           else if (65 <=? n) && (n <=? 90) then n - 55
           else radix in
  if d <? radix then Some d else None.

(** Longest prefix of digits of [s]: the digits read so far and the rest. *)
Fixpoint digits (radix : Z) (s : string) (acc : option Z) : option Z * string :=
  match s with
  | String c r =>
      match digit_of radix c with
      | Some d => digits radix r (Some (radix * default 0 acc + d))
      | None => (acc, s)
      end
  | EmptyString => (acc, s)
  end.

Definition hex_prefixed (s : string) : option string :=
  match s with
  | String "0" (String "x" r) | String "0" (String "X" r) => Some r
  | _ => None
  end.

(** Radix prefixes of a numeric string literal: [0x], [0o], [0b]. *)
Definition radix_prefixed (s : string) : option (Z * string) :=
  match s with
  | String "0" (String "x" r) | String "0" (String "X" r) => Some (16, r)
  | String "0" (String "o" r) | String "0" (String "O" r) => Some (8, r)
  | String "0" (String "b" r) | String "0" (String "B" r) => Some (2, r)
  | _ => None
  end.

Definition of_digits (d : option Z) : number :=
  match d with
  | Some z => Int z
  | None => NaN
  end.

(** [parseInt(s)] on a string: leading white space, a sign, [0x] for
    radix 16, then the longest run of digits; NaN when there is none. *)
Definition parseInt_string (s : string) : number :=
  let t := trim_start s in
  let '(negative, t) :=
    match t with
    | String "-" r => (true, r)
    | String "+" r => (false, r)
    | _ => (false, t)
    end in
  let magnitude :=
    match hex_prefixed t with
    | Some r => of_digits (fst (digits 16 r None))
    | None => of_digits (fst (digits 10 t None))
    end in
  if negative then num_neg magnitude else magnitude.

(** [Number(s)] on a string, for the integer fragment: white space is
    trimmed, the empty string is 0, an optionally signed decimal literal
    or a literal with a radix prefix is its value.  A string that is no
    numeric literal is NaN.  Literals with a fraction or an exponent and
    [Infinity] denote doubles that [number] does not hold: on them the
    definition answers NaN where JavaScript answers that double, and no
    property below is stated on such a string. *)
Definition StringToNumber (s : string) : number :=
  let t := trim s in
  let whole (radix : Z) (r : string) : number :=
    match digits radix r None with
    | (Some z, EmptyString) => Int z
    | _ => NaN
    end in
  match t with
  | EmptyString => Int 0
  | String "-" r => num_neg (whole 10 r)
  | String "+" r => whole 10 r
  | _ => match radix_prefixed t with
         | Some (radix, r) => whole radix r
         | None => whole 10 t
         end
  end.

(** [String(n)].  JavaScript prints an integer in full below 10^21 and in
    exponent form from there on; the definition prints every integer in
    full, so it agrees with the code on the numbers for which
    [prints_in_full] holds. *)
Definition NumberToString (n : number) : string :=
  match n with
  | NaN => "NaN"
  | Int z => pretty z
  end.

Definition ToString (v : jsval) : string :=
  match v with
  | JUndefined => "undefined"
  | JNull => "null"
  | JBool true => "true"
  | JBool false => "false"
  | JNum n => NumberToString n
  | JStr s => s
  end.

Definition ToNumber (v : jsval) : number :=
  match v with
  | JUndefined => NaN
  | JNull => Int 0
  | JBool true => Int 1
  | JBool false => Int 0
  | JNum n => n
  | JStr s => StringToNumber s
  end.

(** [parseInt(x)] converts its argument to a string first. *)
Definition parseInt (v : jsval) : number := parseInt_string (ToString v).

(** [x < y] on primitives: strings compare by code units, everything
    else numerically, and a comparison with NaN is false. *)
Definition lt (x y : jsval) : bool :=
  match x, y with
  | JStr a, JStr b => String.ltb a b
  | _, _ => num_lt (ToNumber x) (ToNumber y)
  end.

(** [x > y] *)
Definition gt (x y : jsval) : bool := lt y x.

(** [x == y] on primitives. *)
Definition loose_eq (x y : jsval) : bool :=
  let unbool v := match v with JBool _ => JNum (ToNumber v) | _ => v end in
  match unbool x, unbool y with
  | (JUndefined | JNull), (JUndefined | JNull) => true
  | JNum a, JNum b => num_eq a b
  | JStr a, JStr b => String.eqb a b
  | JNum a, JStr b => num_eq a (StringToNumber b)
  | JStr a, JNum b => num_eq (StringToNumber a) b
  | _, _ => false
  end.

(** [x.length]: defined for strings; a number or a boolean has no such
    property.  Only reached for values that are neither null nor
    undefined. *)
Definition length (v : jsval) : jsval :=
  match v with
  | JStr s => JNum (Int (Z.of_nat (String.length s)))
  | _ => JUndefined
  end.

(** [x.indexOf(pattern)]: a string method; calling it on a number or a
    boolean throws since the property is undefined. *)
Definition indexOf (v : jsval) (pattern : string) : result jsval :=
  match v with
  | JStr s =>
      match String.index 0 pattern s with
      | Some i => Ok (JNum (Int (Z.of_nat i)))
      | None => Ok (JNum (Int (-1)))
      end
  | _ => Throw (TypeError "indexOf is not a function")
  end.

(** [s.substring(0, n)] and [s.slice(-n)]. *)
Definition substring_to (n : nat) (s : string) : string := String.substring 0 n s.

Definition slice_last (n : nat) (s : string) : string :=
  String.substring (String.length s - n) n s.

Definition lower (c : ascii) : ascii :=
  let n := nat_of_ascii c in
  if ((65 <=? n) && (n <=? 90))%nat then ascii_of_nat (n + 32) else c.

Fixpoint toLowerCase (s : string) : string :=
  match s with
  | String c r => String (lower c) (toLowerCase r)
  | EmptyString => EmptyString
  end.

End JS.

(** ** State: what the handler keeps at an address *)

(** The object [{name, mail, bankAccount, ..., refund, total}] that "buy"
    stores under the purchase id (lines 78-79). *)
Module Entry.
Record t := make {
  name : jsval; mail : jsval; bankAccount : jsval; placeAddress : jsval;
  town : jsval; province : jsval; checkinDate : jsval; checkoutDate : jsval;
  days : jsval; rainAmount : jsval; startHour : jsval; endHour : jsval;
  refund : jsval; total : jsval }.
End Entry.

(** A property of the state object holds an entry, or a primitive once
    [_applyOperator] has assigned its result to it. *)
Inductive slot :=
| SObj (e : Entry.t)
| SVal (v : jsval).

(** Bytes kept at an address: nothing, or the CBOR encoding of a state
    object.  The codec is abstracted to its round trip. *)
Inductive buffer :=
| BufEmpty
| BufCbor (stateValue : gmap string slot).

Module cbor.
Definition encode (stateValue : gmap string slot) : buffer := BufCbor stateValue.

Definition decodeFirstSync (b : buffer) : result (gmap string slot) :=
  match b with
  | BufCbor v => Ok v
  | BufEmpty => Throw (TypeError "Insufficient data")
  end.

(** [b.length]; the handler only asks whether it is zero, and an encoding
    has at least one byte. *)
Definition length (b : buffer) : Z :=
  match b with
  | BufEmpty => 0
  | BufCbor _ => 1
  end.
End cbor.

(** The state gateway of the validator: the entries of the ledger, and the
    addresses for which it lets a write take effect. *)
Record context := Context {
  entries : gmap string buffer;
  accepts : string -> bool }.

(** Handler code runs against the context and either resolves or throws. *)
Definition M (A : Type) : Type := context -> result A * context.

#[global] Instance M_ret : MRet M := fun A a ctx => (Ok a, ctx).
#[global] Instance M_bind : MBind M := fun A B f m ctx =>
  match m ctx with
  | (Ok a, ctx') => f a ctx'
  | (Throw e, ctx') => (Throw e, ctx')
  end.

Definition throw {A : Type} (e : exn) : M A := fun ctx => (Throw e, ctx).

Definition lift {A : Type} (r : result A) : M A := fun ctx => (r, ctx).

(** [context.getState(addresses)]: the entries found at these addresses. *)
Definition getState (addresses : list string) : M (gmap string buffer) :=
  fun ctx => (Ok (filter (fun kv => kv.1 ∈ addresses) (entries ctx)), ctx).

(** [context.setState(entries)]: resolves to the addresses written. *)
Definition setState (new : gmap string buffer) : M (list string) :=
  fun ctx =>
    let written := filter (fun kv => accepts ctx kv.1 = true) new in
    (Ok (List.map fst (map_to_list written)),
     Context (written ∪ entries ctx) (accepts ctx)).

(** ** The handler *)

Definition MIN_VALUE : Z := 0.
Definition MAX_VALUE : Z := 4294967295.
Definition MAX_NAME_LENGTH : Z := 20.
Definition MAX_BANK_ACCOUNT_LENGTH : Z := 16.
Definition TP_FAMILY : string := "segurolluvia".

(** [crypto.createHash('sha512').update(s).digest('hex').toLowerCase()] on a
    string. *)
Definition sha512 (s : string) : string := JS.toLowerCase (SHA512.sha512_hex s).

(** [_hash(x)] on the values of [jsval]: [update] hashes a string and
    throws a TypeError on undefined, null, a boolean or a number (the text
    of the message is the engine's own).  It also takes a byte buffer,
    which is not a [jsval]. *)
Definition _hash (x : jsval) : result string :=
  match x with
  | JStr s => Ok (sha512 s)
  | _ =>
      Throw (TypeError
               "The data argument must be of type string or an instance of Buffer, TypedArray, or DataView.")
  end.

Definition TP_NAMESPACE : string := JS.substring_to 6 (sha512 TP_FAMILY).

Definition quoted (s : string) : string :=
  String (ascii_of_nat 34) s +:+ String (ascii_of_nat 34) EmptyString.

Definition newline : string := String (ascii_of_nat 10) EmptyString.

(** The rejections of the state transition, with their messages. *)
Definition already_in_state (purchase : jsval) : exn :=
  InvalidTransaction
    ("Verb is " +:+ quoted "buy" +:+ " but Purchase " +:+ JS.ToString purchase +:+
     " already in state").

Definition not_in_state (verb : string) : exn :=
  InvalidTransaction ("Verb is " +:+ quoted verb +:+ " but Name is not in state").

Definition below_minimum (verb : string) : exn :=
  InvalidTransaction
    ("Verb is " +:+ quoted verb +:+ ", but result would be less than " +:+ pretty MIN_VALUE).

Definition above_maximum (verb : string) : exn :=
  InvalidTransaction
    ("Verb is " +:+ quoted verb +:+ ", but result would be greater than " +:+ pretty MAX_VALUE).

Definition _setEntry (address : string) (stateValue : gmap string slot) : M (list string) :=
  let entries := {[ address := cbor.encode stateValue ]} in
  setState entries.

(** [stateValue[key]]: the own property named by the string form of
    [key].  A decoded state object also answers the members it inherits
    from [Object.prototype], and an assignment under [__proto__] makes no
    own property: on a key for which [Object_prototype_member] holds, a
    miss of this definition is not a miss of the code.  The properties of
    a lookup miss and of a new key are stated for the other keys. *)
Definition get_slot (stateValue : gmap string slot) (key : jsval) : slot :=
  default (SVal JUndefined) (stateValue !! JS.ToString key).

Definition slot_truthy (s : slot) : bool :=
  match s with
  | SObj _ => true
  | SVal v => JS.truthy v
  end.

Definition slot_nullish (s : slot) : bool :=
  match s with
  | SObj _ => false
  | SVal v => JS.nullish v
  end.

(** An entry used as an operand of [+] or [-] becomes the string of a
    plain object. *)
Definition ToPrimitive (s : slot) : jsval :=
  match s with
  | SObj _ => JStr "[object Object]"
  | SVal v => v
  end.

(** [(x, y) => x + y] *)
Definition add (x : slot) (y : jsval) : jsval :=
  match ToPrimitive x, y with
  | JStr a, _ => JStr (a +:+ JS.ToString y)
  | px, JStr b => JStr (JS.ToString px +:+ b)
  | px, _ => JNum (JS.num_add (JS.ToNumber px) (JS.ToNumber y))
  end.

(** [(x, y) => x - y] *)
Definition sub (x : slot) (y : jsval) : jsval :=
  JNum (JS.num_sub (JS.ToNumber (ToPrimitive x)) (JS.ToNumber y)).

Definition _applySet (address : string)
    (name mail bankAccount placeAddress town province checkinDate checkoutDate
     days rainAmount startHour endHour refund purchase total : jsval)
    (possibleAddressValues : gmap string buffer) : M (list string) :=
  let stateValueRep := possibleAddressValues !! address in
  stateValue ←
    match stateValueRep with
    | Some rep =>
        if 0 <? cbor.length rep then
          stateValue ← lift (cbor.decodeFirstSync rep);
          let stateName := get_slot stateValue purchase in
          if slot_truthy stateName then
            throw (already_in_state purchase)
          else mret (Some stateValue)
        else mret None
    | None => mret None
    end;
  let stateValue := default ∅ stateValue in
  let stateValue :=
    <[ JS.ToString purchase :=
         SObj (Entry.make name mail bankAccount placeAddress town province
                 checkinDate checkoutDate days rainAmount startHour endHour
                 refund total) ]> stateValue in
  _setEntry address stateValue.

Definition _applyOperator (verb : string) (op : slot -> jsval -> jsval)
    (address : string) (name value : jsval)
    (possibleAddressValues : gmap string buffer) : M (list string) :=
  match possibleAddressValues !! address with
  | None => throw (not_in_state verb)
  | Some stateValueRep =>
      if cbor.length stateValueRep =? 0 then throw (not_in_state verb)
      else
        stateValue ← lift (cbor.decodeFirstSync stateValueRep);
        if slot_nullish (get_slot stateValue name) then throw (not_in_state verb)
        else
          let result := op (get_slot stateValue name) value in
          if JS.lt result (JNum (Int MIN_VALUE)) then throw (below_minimum verb)
          else if JS.gt result (JNum (Int MAX_VALUE)) then throw (above_maximum verb)
          else
            _setEntry address (<[ JS.ToString name := SVal result ]> stateValue)
  end.

Definition _applyInc := _applyOperator "inc" add.
Definition _applyDec := _applyOperator "dec" sub.

(** *** Validation of the decoded payload (lines 150-266) *)

(** What [cbor.decodeFirst] yields: a map of fields, or a bare primitive. *)
Inductive payload :=
| PVal (v : jsval)
| PObj (fields : gmap string jsval).

(** [update.Key]: reading a property of null or undefined throws; a
    primitive has none of the properties the handler reads. *)
Definition prop (update : payload) (key : string) : result jsval :=
  match update with
  | PObj fields => Ok (default JUndefined (fields !! key))
  | PVal (JUndefined | JNull) =>
      Throw (TypeError ("Cannot read property " +:+ key +:+ " of null or undefined"))
  | PVal _ => Ok JUndefined
  end.

(** [if (cond) throw new InvalidTransaction(message)] *)
Definition reject_if (cond : bool) (message : string) : result unit :=
  if cond then Throw (InvalidTransaction message) else Ok tt.

(** The blocks of the shape [let x = update.Key; if (!x) throw ...]. *)
Definition required (update : payload) (key message : string) : result jsval :=
  x ← prop update key;
  reject_if (negb (JS.truthy x)) message;;
  mret x.

(** The blocks that test [x === null || x === undefined] instead. *)
Definition present (update : payload) (key message : string) : result jsval :=
  x ← prop update key;
  reject_if (JS.nullish x) message;;
  mret x.

Definition check_verb (update : payload) : result jsval :=
  required update "Verb" "Verb is required".

Definition check_name (update : payload) : result jsval :=
  name ← required update "Name" "Name is required";
  reject_if (JS.gt (JS.length name) (JNum (Int MAX_NAME_LENGTH)))
    ("Name must be a string of no more than " +:+ pretty MAX_NAME_LENGTH +:+ " characters");;
  mret name.

Definition check_mail (update : payload) : result jsval :=
  mail ← required update "Mail" "Mail is required";
  at_sign ← JS.indexOf mail "@";
  reject_if (JS.gt at_sign (JNum (Int (-1)))) "Mail must contain @ character";;
  mret mail.

Definition check_bankAccount (update : payload) : result jsval :=
  bankAccount ← present update "BankAccount" "Bank account is required";
  let parsed := JNum (JS.parseInt bankAccount) in
  reject_if (negb (JS.strict_eq parsed bankAccount)
             || negb (JS.loose_eq (JS.length parsed) (JNum (Int MAX_BANK_ACCOUNT_LENGTH))))
    ("Bank Account must be an integer of " +:+ pretty MAX_NAME_LENGTH +:+ " numbers");;
  mret parsed.

Definition check_days (update : payload) : result jsval :=
  days ← present update "Days" "Days is required";
  let parsed := JNum (JS.parseInt days) in
  mret parsed.

(** The local variables of [apply] once every check has passed. *)
Module Fields.
Record t := make {
  verb : jsval; name : jsval; mail : jsval; bankAccount : jsval;
  placeAddress : jsval; town : jsval; province : jsval;
  checkinDate : jsval; checkoutDate : jsval; days : jsval;
  rainAmount : jsval; startHour : jsval; endHour : jsval;
  refund : jsval; purchase : jsval; total : jsval }.
End Fields.

Definition validate (update : payload) : result Fields.t :=
  verb ← check_verb update;
  name ← check_name update;
  mail ← check_mail update;
  bankAccount ← check_bankAccount update;
  placeAddress ← required update "PlaceAddress" "Place address is required";
  town ← required update "Town" "Town is required";
  province ← required update "Province" "Province is required";
  checkinDate ← required update "CheckinDate" "Checkin date is required";
  checkoutDate ← required update "CheckoutDate" "Checkout date is required";
  days ← check_days update;
  rainAmount ← required update "RainAmount" "Rain amount is required";
  startHour ← required update "StartHour" "Start hour date is required";
  endHour ← required update "EndHour" "End hour date is required";
  refund ← present update "Refund" "Refund is required";
  purchase ← present update "Purchase" "Purchase number is required";
  total ← present update "Total" "Total price is required";
  mret (Fields.make verb name mail bankAccount placeAddress town province
          checkinDate checkoutDate days rainAmount startHour endHour
          refund purchase total).

(** *** Dispatch on the verb and state transition (lines 269-304) *)

(** The common shape of the calls [actionFn(context, address, name, mail,
    ..., total)(possibleAddressValues)]. *)
Definition action : Type :=
  string -> jsval -> jsval -> jsval -> jsval -> jsval -> jsval -> jsval -> jsval ->
  jsval -> jsval -> jsval -> jsval -> jsval -> jsval -> jsval ->
  gmap string buffer -> M (list string).

(** A function of the parameters [(context, address, name, value)] called
    with sixteen arguments binds the first four and drops the rest. *)
Definition four_parameters
    (fn : string -> jsval -> jsval -> gmap string buffer -> M (list string)) : action :=
  fun address name value _ _ _ _ _ _ _ _ _ _ _ _ _ => fn address name value.

Definition unrecognized (verb : jsval) : exn :=
  InvalidTransaction
    ("Didn't recognize Verb " +:+ quoted (JS.ToString verb) +:+ "." +:+ newline +:+
     "Must be " +:+ quoted "buy" +:+ ", " +:+ quoted "calculate" +:+ ", or " +:+
     quoted "getData").

Definition select_action (verb : jsval) : result action :=
  if JS.strict_eq verb (JStr "buy") then Ok _applySet
  else if JS.strict_eq verb (JStr "calculate") then Ok (four_parameters _applyDec)
  else if JS.strict_eq verb (JStr "getData") then Ok (four_parameters _applyInc)
  else Throw (unrecognized verb).

(** [TP_NAMESPACE + _hash(purchase).slice(-64)] *)
Definition make_address (purchase : jsval) : result string :=
  digest ← _hash purchase;
  mret (TP_NAMESPACE +:+ JS.slice_last 64 digest).

(** The part of [apply] after validation.  The final [console.log] is a
    diagnostic and left out. *)
Definition dispatch (f : Fields.t) : M unit :=
  actionFn ← lift (select_action (Fields.verb f));
  address ← lift (make_address (Fields.purchase f));
  possibleAddressValues ← getState [address];
  addresses ←
    actionFn address (Fields.name f) (Fields.mail f) (Fields.bankAccount f)
      (Fields.placeAddress f) (Fields.town f) (Fields.province f)
      (Fields.checkinDate f) (Fields.checkoutDate f) (Fields.days f)
      (Fields.rainAmount f) (Fields.startHour f) (Fields.endHour f)
      (Fields.refund f) (Fields.purchase f) (Fields.total f)
      possibleAddressValues;
  if (Z.of_nat (List.length addresses) =? 0)
  then throw (InternalError "State error!")
  else mret tt.

(** *** The entry point *)

(** The request payload as bytes: a CBOR item, or bytes that do not decode. *)
Inductive wire :=
| Encoded (update : payload)
| Malformed (message : string).

Definition _decodeCbor (w : wire) : result payload :=
  match w with
  | Encoded update => Ok update
  | Malformed message => Throw (TypeError message)
  end.

(** [.catch(_toInternalError)] *)
Definition _toInternalError {A : Type} (r : result A) : result A :=
  match r with
  | Ok a => Ok a
  | Throw (InvalidTransaction m | InternalError m | TypeError m) => Throw (InternalError m)
  end.

Definition apply (transactionProcessRequest : wire) : M unit :=
  update ← lift (_toInternalError (_decodeCbor transactionProcessRequest));
  f ← lift (validate update);
  dispatch f.

(** ** Notions used to state the properties *)

(** The names a plain object inherits from [Object.prototype]. *)
Definition Object_prototype_member (key : string) : bool :=
  existsb (String.eqb key)
    ["constructor"; "__proto__"; "toString"; "toLocaleString"; "valueOf";
     "hasOwnProperty"; "isPrototypeOf"; "propertyIsEnumerable";
     "__defineGetter__"; "__defineSetter__"; "__lookupGetter__"; "__lookupSetter__"].


(** The state object decoded from the bytes at an address; empty when
    nothing is stored there. *)
Definition state_at (ctx : context) (address : string) : gmap string slot :=
  match entries ctx !! address with
  | Some (BufCbor stateValue) => stateValue
  | _ => ∅
  end.

(** The address of a purchase id that is a string. *)
Definition address_of (p : string) : string :=
  TP_NAMESPACE +:+ JS.slice_last 64 (sha512 p).

(** The entry that "buy" builds from the fields. *)
Definition entry_of (f : Fields.t) : Entry.t :=
  Entry.make (Fields.name f) (Fields.mail f) (Fields.bankAccount f)
    (Fields.placeAddress f) (Fields.town f) (Fields.province f)
    (Fields.checkinDate f) (Fields.checkoutDate f) (Fields.days f)
    (Fields.rainAmount f) (Fields.startHour f) (Fields.endHour f)
    (Fields.refund f) (Fields.total f).

(** The context once the state object at [address] is replaced. *)
Definition written (ctx : context) (address : string) (stateValue : gmap string slot) : context :=
  Context (<[ address := BufCbor stateValue ]> (entries ctx)) (accepts ctx).

(** The exceptions a check of the payload can raise: a rejection, or the
    TypeError of reading a property of null or calling a missing method. *)
Definition raised_by_check (e : exn) : Prop :=
  match e with
  | InvalidTransaction _ | TypeError _ => True
  | InternalError _ => False
  end.

(** A check that passes or rejects, without a runtime fault. *)
Definition passes_or_rejects {A : Type} (r : result A) : Prop :=
  match r with
  | Ok _ | Throw (InvalidTransaction _) => True
  | Throw _ => False
  end.

(** An action either throws before it touches the context or ends in the
    single write of [_setEntry]. *)
Definition throws_or_writes (address : string) (m : M (list string)) (ctx : context) : Prop :=
  (exists e, m ctx = (Throw e, ctx))
  \/ (exists stateValue, m ctx = _setEntry address stateValue ctx).

(** A customer, payloads in that customer's name and a ledger to run the
    handler on. *)
Module Scenario.
Definition request (verb mail : string) (bankAccount : jsval) : payload :=
  PObj (list_to_map
    [("Verb", JStr verb); ("Name", JStr "Ana"); ("Mail", JStr mail);
     ("BankAccount", bankAccount); ("PlaceAddress", JStr "Calle Mayor 1");
     ("Town", JStr "Bilbao"); ("Province", JStr "Bizkaia");
     ("CheckinDate", JStr "2019-07-01"); ("CheckoutDate", JStr "2019-07-08");
     ("Days", JNum (Int 7)); ("RainAmount", JStr "fuerte");
     ("StartHour", JStr "10:00"); ("EndHour", JStr "20:00");
     ("Refund", JNum (Int 0)); ("Purchase", JStr "P1"); ("Total", JNum (Int 500))]).

(** The fields of such a payload as they would reach the transition. *)
Definition fields (verb name : string) (refund : Z) (purchase : string) : Fields.t :=
  Fields.make (JStr verb) (JStr name) (JStr "ana.example.org")
    (JNum (Int 1234567890123456)) (JStr "Calle Mayor 1") (JStr "Bilbao")
    (JStr "Bizkaia") (JStr "2019-07-01") (JStr "2019-07-08") (JNum (Int 7))
    (JStr "fuerte") (JStr "10:00") (JStr "20:00") (JNum (Int refund))
    (JStr purchase) (JNum (Int 500)).

Definition empty : context := Context ∅ (fun _ => true).

(** The ledger whose state object at the address of purchase [p] holds,
    under the key [holder], the entry of a purchase with a refund of 100. *)
Definition bought (p holder : string) : context :=
  Context
    {[ address_of p :=
         BufCbor {[ holder := SObj (entry_of (fields "buy" "Ana" 100 holder)) ]} ]}
    (fun _ => true).
End Scenario.

(** ** Registration (lines 34-36 and 121-124) *)

Definition TP_VERSION : string := "1.0.0".

(** What the constructor hands to [TransactionHandler]: the family name,
    the versions and the namespaces the processor registers for. *)
Record TransactionHandler := {
  transactionFamilyName : string;
  versions : list string;
  namespaces : list string }.

Definition SeguroLluviaHandler : TransactionHandler :=
  {| transactionFamilyName := TP_FAMILY;
     versions := [TP_VERSION];
     namespaces := [TP_NAMESPACE] |}.

(** Further contexts to run the handler on. *)
Module Cases.

(** A state object with one numeric property, as the operator expects it. *)
Definition counter (address key : string) (x : Z) : context :=
  Context {[ address := BufCbor {[ key := SVal (JNum (Int x)) ]} ]} (fun _ => true).

(** A payload whose purchase is a number, and its fields as they would
    reach the transition. *)
Definition numbered_request (verb : string) (purchase : Z) : payload :=
  PObj (list_to_map
    [("Verb", JStr verb); ("Name", JStr "Ana"); ("Mail", JStr "ana.example.org");
     ("BankAccount", JNum (Int 1234567890123456)); ("PlaceAddress", JStr "Calle Mayor 1");
     ("Town", JStr "Bilbao"); ("Province", JStr "Bizkaia");
     ("CheckinDate", JStr "2019-07-01"); ("CheckoutDate", JStr "2019-07-08");
     ("Days", JNum (Int 7)); ("RainAmount", JStr "fuerte");
     ("StartHour", JStr "10:00"); ("EndHour", JStr "20:00");
     ("Refund", JNum (Int 0)); ("Purchase", JNum (Int purchase)); ("Total", JNum (Int 500))]).

Definition numbered (verb : string) (purchase : Z) : Fields.t :=
  Fields.make (JStr verb) (JStr "Ana") (JStr "ana.example.org")
    (JNum (Int 1234567890123456)) (JStr "Calle Mayor 1") (JStr "Bilbao")
    (JStr "Bizkaia") (JStr "2019-07-01") (JStr "2019-07-08") (JNum (Int 7))
    (JStr "fuerte") (JStr "10:00") (JStr "20:00") (JNum (Int 0))
    (JNum (Int purchase)) (JNum (Int 500)).
End Cases.

(** The end of [apply] (lines 295-298): an action that reports no address
    written makes an internal error. *)
Definition settled (r : result (list string) * context) : result unit * context :=
  match r with
  | (Ok addresses, ctx') =>
      if Z.of_nat (List.length addresses) =? 0
      then (Throw (InternalError "State error!"), ctx')
      else (Ok tt, ctx')
  | (Throw e, ctx') => (Throw e, ctx')
  end.

(** * Properties *)

(** Run the sequencing of the error monad, leaving the checks folded. *)
Ltac run := cbn [mbind mret result_bind result_ret reject_if].

(** Case split on the condition of the next guard. *)
Ltac case_reject :=
  match goal with
  | |- context [reject_if ?c _] => destruct c eqn:?; run
  end.

(** Run the sequencing of handler code against its context. *)
Ltac runM :=
  cbv [mbind mret M_bind M_ret result_bind result_ret lift throw getState].

(** Decide a closed equation by running both sides on the virtual machine. *)
Ltac vm_refl :=
  lazymatch goal with
  | |- ?l = ?r => vm_cast_no_check (@eq_refl _ r)
  end.

(** ** The digest *)

Example sha512_abc :
  SHA512.sha512_hex "abc" =
  "ddaf35a193617abacc417349ae20413112e6fa4e89a97ea20a9eeee64b55d39a2192992a274fc1a836ba3c23a3feebbd454d4423643ce80e2a9ac94fa54ca49f".
Proof. vm_refl. Qed.

Example sha512_two_blocks :
  SHA512.sha512_hex
    "abcdefghbcdefghicdefghijdefghijkefghijklfghijklmghijklmnhijklmnoijklmnopjklmnopqklmnopqrlmnopqrsmnopqrstnopqrstu" =
  "8e959b75dae313da8cf4f72814fc143f8f7779c6eb9f7fa17299aeadb6889018501d289e4900f7e4331b99dec4b5433ac7d329eeb6dd26545e96e55b874be909".
Proof. vm_refl. Qed.

Example TP_NAMESPACE_value : TP_NAMESPACE = "660428".
Proof. vm_refl. Qed.

Example address_of_P1 :
  address_of "P1" = "6604284558901c71ca4b6dc47708dcad0773812c4169533ba214b3f0c601db27179694".
Proof. vm_refl. Qed.

Lemma length_append (a b : string) :
  String.length (a +:+ b) = (String.length a + String.length b)%nat.
Proof. induction a as [|c a IH]; simpl; [reflexivity | rewrite IH; reflexivity]. Qed.

Lemma length_substring (n m : nat) (s : string) :
  (n + m <= String.length s)%nat -> String.length (String.substring n m s) = m.
Proof.
  revert n m. induction s as [|c s IH]; intros n m H; simpl in H.
  - assert (n = 0%nat) by lia. assert (m = 0%nat) by lia. subst. reflexivity.
  - destruct n as [|n]; simpl.
    + destruct m as [|m]; simpl; [reflexivity|]. rewrite IH; [reflexivity | lia].
    + apply IH. lia.
Qed.

Lemma length_toLowerCase (s : string) :
  String.length (JS.toLowerCase s) = String.length s.
Proof. induction s as [|c s IH]; simpl; [reflexivity | rewrite IH; reflexivity]. Qed.

Lemma length_string_of_list_ascii (l : list ascii) :
  String.length (string_of_list_ascii l) = List.length l.
Proof. induction l as [|c l IH]; simpl; [reflexivity | rewrite IH; reflexivity]. Qed.

(** The hexadecimal digest has 128 characters whatever the message. *)
Lemma length_sha512 (s : string) : String.length (sha512 s) = 128%nat.
Proof.
  unfold sha512, SHA512.sha512_hex, SHA512.hex.
  rewrite length_toLowerCase, length_string_of_list_ascii. reflexivity.
Qed.

Lemma length_TP_NAMESPACE : String.length TP_NAMESPACE = 6%nat.
Proof. vm_refl. Qed.

(** ** Address derivation (line 281) *)

Lemma make_address_of (p : string) : make_address (JStr p) = Ok (address_of p).
Proof. reflexivity. Qed.

Lemma substring_all (s : string) : String.substring 0 (String.length s) s = s.
Proof. induction s as [|c s IH]; simpl; [reflexivity | rewrite IH; reflexivity]. Qed.

Lemma substring_split (n : nat) (s : string) :
  (n <= String.length s)%nat ->
  s = String.substring 0 n s +:+ String.substring n (String.length s - n) s.
Proof.
  revert n. induction s as [|c s IH]; intros n H; simpl in H.
  - assert (n = 0%nat) by lia. subst. reflexivity.
  - destruct n as [|n].
    + change (String.substring 0 0 (String c s)) with EmptyString.
      rewrite Nat.sub_0_r, substring_all. reflexivity.
    + cbn [String.substring String.length Nat.sub].
      change (String c (String.substring 0 n s) +:+ String.substring n (String.length s - n) s)
        with (String c (String.substring 0 n s +:+ String.substring n (String.length s - n) s)).
      rewrite <- IH by lia. reflexivity.
Qed.

(** X22: on a purchase id that is a string, derivation does not fail.  The
    digest of the id has 128 digits; the address is the namespace followed
    by the second half of them, the last 64, and has 70 characters.  The
    namespace is the six digits the digest of the family name starts
    with. *)
Theorem make_address_string (p : string) :
  exists head tail : string,
    sha512 p = head +:+ tail
    /\ String.length head = 64%nat
    /\ String.length tail = 64%nat
    /\ make_address (JStr p) = Ok (TP_NAMESPACE +:+ tail)
    /\ String.length (TP_NAMESPACE +:+ tail) = 70%nat
    /\ String.length TP_NAMESPACE = 6%nat
    /\ String.prefix TP_NAMESPACE (sha512 TP_FAMILY) = true.
Proof.
  pose proof (length_sha512 p) as Hl.
  exists (String.substring 0 64 (sha512 p)), (JS.slice_last 64 (sha512 p)).
  assert (Hs : String.length (JS.slice_last 64 (sha512 p)) = 64%nat).
  { unfold JS.slice_last. apply length_substring. rewrite Hl. lia. }
  split.
  { unfold JS.slice_last. rewrite Hl.
    pose proof (substring_split 64 (sha512 p)) as H. rewrite Hl in H.
    apply H. lia. }
  split; [apply length_substring; rewrite Hl; lia|].
  split; [exact Hs|]. split; [reflexivity|].
  split; [rewrite length_append, length_TP_NAMESPACE, Hs; reflexivity|].
  split; [exact length_TP_NAMESPACE | vm_refl].
Qed.

(** C10: a purchase number is let through by the presence check of
    validation, 0 included, and makes the digest call throw: no address is
    derived for it. *)
Theorem make_address_number_throws :
  present (Cases.numbered_request "buy" 0) "Purchase" "Purchase number is required"
    = Ok (JNum (Int 0))
  /\ (exists message, make_address (JNum (Int 0)) = Throw (TypeError message))
  /\ ~ (exists address, make_address (JNum (Int 0)) = Ok address).
Proof.
  split; [vm_refl|]. split; [eexists; reflexivity|].
  intros [a H]. discriminate H.
Qed.

(** ** Validation *)

Lemma strict_eq_string (v : jsval) (s : string) :
  JS.strict_eq v (JStr s) = true <-> v = JStr s.
Proof.
  destruct v as [| |b|n|t]; simpl; try (split; [discriminate | discriminate]).
  rewrite String.eqb_eq. split; congruence.
Qed.

(** The property [length] of a number is undefined, which is not [== 16]. *)
Lemma number_length_not_16 (n : number) :
  JS.loose_eq (JS.length (JNum n)) (JNum (Int MAX_BANK_ACCOUNT_LENGTH)) = false.
Proof. reflexivity. Qed.

(** The bank-account block throws for every payload (lines 181-190). *)
Lemma check_bankAccount_throws (update : payload) :
  exists e, check_bankAccount update = Throw e /\ forall m, e <> InternalError m.
Proof.
  unfold check_bankAccount, present. cbv zeta.
  destruct (prop update "BankAccount") as [x|e] eqn:Hp; run.
  - destruct (JS.nullish x); run.
    + eexists; split; [reflexivity | discriminate].
    + rewrite number_length_not_16, orb_true_r. run.
      eexists; split; [reflexivity | discriminate].
  - exists e. split; [reflexivity|].
    destruct update as [[]|]; simpl in Hp; inversion Hp; discriminate.
Qed.

Lemma prop_raises (update : payload) (key : string) (e : exn) :
  prop update key = Throw e -> raised_by_check e.
Proof. destruct update as [[]|]; simpl; intros H; inversion H; exact I. Qed.

Lemma required_raises (update : payload) (key message : string) (e : exn) :
  required update key message = Throw e -> raised_by_check e.
Proof.
  unfold required. destruct (prop update key) as [x|e'] eqn:Hp; run.
  - case_reject; intros H; inversion H; exact I.
  - intros H; inversion H; subst. eapply prop_raises; eassumption.
Qed.

Lemma check_name_raises (update : payload) (e : exn) :
  check_name update = Throw e -> raised_by_check e.
Proof.
  unfold check_name.
  destruct (required update "Name" "Name is required") as [x|e'] eqn:Hr; run.
  - case_reject; intros H; inversion H; exact I.
  - intros H; inversion H; subst. eapply required_raises; eassumption.
Qed.

Lemma check_mail_raises (update : payload) (e : exn) :
  check_mail update = Throw e -> raised_by_check e.
Proof.
  unfold check_mail.
  destruct (required update "Mail" "Mail is required") as [x|e'] eqn:Hr; run.
  - destruct (JS.indexOf x "@") as [i|e'] eqn:Hi; run.
    + case_reject; intros H; inversion H; exact I.
    + intros H; inversion H; subst.
      destruct x; simpl in Hi; try (inversion Hi; exact I).
      destruct (index 0 "@" s); discriminate.
  - intros H; inversion H; subst. eapply required_raises; eassumption.
Qed.

(** Validation never yields a set of fields: whatever passes the verb, name
    and mail blocks is thrown out by the bank-account block. *)
Lemma validate_throws (update : payload) :
  exists e, validate update = Throw e /\ raised_by_check e.
Proof.
  unfold validate, check_verb.
  destruct (required update "Verb" "Verb is required") as [verb|e] eqn:Hv; run;
    [| exists e; split; [reflexivity | eapply required_raises; eassumption]].
  destruct (check_name update) as [name|e] eqn:Hn; run;
    [| exists e; split; [reflexivity | eapply check_name_raises; eassumption]].
  destruct (check_mail update) as [mail|e] eqn:Hm; run;
    [| exists e; split; [reflexivity | eapply check_mail_raises; eassumption]].
  destruct (check_bankAccount_throws update) as (e & -> & He). run.
  exists e. split; [reflexivity|].
  destruct e; simpl; try exact I. exact (He _ eq_refl).
Qed.

(** An exception of validation is the outcome of [apply], whatever the
    verb, and the context is not touched. *)
Lemma apply_validate_first (update : payload) (ctx : context) (e : exn) :
  validate update = Throw e -> apply (Encoded update) ctx = (Throw e, ctx).
Proof.
  intros H. unfold apply. cbn [_decodeCbor _toInternalError]. runM.
  rewrite H. reflexivity.
Qed.

(** Bytes that do not decode make an internal error. *)
Lemma apply_malformed (message : string) (ctx : context) :
  apply (Malformed message) ctx = (Throw (InternalError message), ctx).
Proof. reflexivity. Qed.

(** C1: for every decoded payload [apply] ends in a rejection raised by
    validation, so that the state transition is never reached: no
    transaction is accepted and the context is returned as it was.  The
    exception is an [InvalidTransaction], or the [TypeError] of a payload
    that is null or whose Mail has no [indexOf]. *)
Theorem apply_never_accepts (update : payload) (ctx : context) :
  exists e, validate update = Throw e
            /\ raised_by_check e
            /\ apply (Encoded update) ctx = (Throw e, ctx).
Proof.
  destruct (validate_throws update) as (e & Hv & He).
  exists e. split; [exact Hv|]. split; [exact He|].
  apply apply_validate_first. exact Hv.
Qed.

(** *** The kind of the rejection *)

Lemma required_map (fields : gmap string jsval) (key message : string) :
  required (PObj fields) key message = Ok (default JUndefined (fields !! key))
  \/ required (PObj fields) key message = Throw (InvalidTransaction message).
Proof.
  unfold required, prop. run.
  destruct (JS.truthy (default JUndefined (fields !! key))); run; [left | right]; reflexivity.
Qed.

Lemma required_map_truthy (fields : gmap string jsval) (key message : string) (x : jsval) :
  required (PObj fields) key message = Ok x ->
  x = default JUndefined (fields !! key) /\ JS.truthy x = true.
Proof.
  unfold required, prop. run.
  destruct (JS.truthy (default JUndefined (fields !! key))) eqn:Ht; run; [|discriminate].
  intros [= <-]. split; [reflexivity | exact Ht].
Qed.

Lemma check_name_map (fields : gmap string jsval) :
  passes_or_rejects (check_name (PObj fields)).
Proof.
  unfold check_name.
  destruct (required_map fields "Name" "Name is required") as [-> | ->]; run; [|exact I].
  case_reject; exact I.
Qed.

Lemma check_mail_map (fields : gmap string jsval) :
  (forall v, fields !! "Mail" = Some v -> JS.truthy v = true -> exists s, v = JStr s) ->
  passes_or_rejects (check_mail (PObj fields)).
Proof.
  intros Hmail. unfold check_mail.
  destruct (required (PObj fields) "Mail" "Mail is required") as [x|e] eqn:Hr; run.
  - apply required_map_truthy in Hr as [-> Ht].
    destruct (fields !! "Mail") as [v|] eqn:Hm; cbn [from_option id] in *; [|discriminate].
    destruct (Hmail v eq_refl Ht) as [s ->].
    unfold JS.indexOf. destruct (String.index 0 "@" s); run; case_reject; exact I.
  - destruct (required_map fields "Mail" "Mail is required") as [H | H];
      rewrite H in Hr; inversion Hr. exact I.
Qed.

Lemma check_bankAccount_map (fields : gmap string jsval) :
  exists m, check_bankAccount (PObj fields) = Throw (InvalidTransaction m).
Proof.
  unfold check_bankAccount, present, prop. cbv zeta. run.
  case_reject; [eexists; reflexivity|].
  rewrite number_length_not_16, orb_true_r. run. eexists; reflexivity.
Qed.

(** On a payload that is a map whose Mail, when present and truthy, is a
    string, the exception of validation is an [InvalidTransaction]. *)
Lemma validate_rejects_map (fields : gmap string jsval) :
  (forall v, fields !! "Mail" = Some v -> JS.truthy v = true -> exists s, v = JStr s) ->
  exists m, validate (PObj fields) = Throw (InvalidTransaction m).
Proof.
  intros Hmail. unfold validate, check_verb.
  destruct (required_map fields "Verb" "Verb is required") as [-> | ->]; run;
    [| eexists; reflexivity].
  pose proof (check_name_map fields) as Hn.
  destruct (check_name (PObj fields)) as [name|[]]; try contradiction; run;
    [| eexists; reflexivity].
  pose proof (check_mail_map fields Hmail) as Hm.
  destruct (check_mail (PObj fields)) as [mail|[]]; try contradiction; run;
    [| eexists; reflexivity].
  destruct (check_bankAccount_map fields) as [m ->]. run. eexists; reflexivity.
Qed.

(** *** The mail block (lines 170-178) *)

Lemma index_at_sign (s : string) :
  String.index 0 "@" s = None <-> ~ In "@"%char (list_ascii_of_string s).
Proof.
  induction s as [|c r IH]; cbn [String.index String.prefix list_ascii_of_string In].
  - split; [intros _ [] | intros _; reflexivity].
  - destruct (ascii_dec "@" c) as [<-|Hc].
    + replace (String.prefix EmptyString r) with true by (destruct r; reflexivity).
      split; [discriminate | intros H; exfalso; apply H; left; reflexivity].
    + destruct (String.index 0 "@" r) as [n|].
      * split; [discriminate|]. intros H. exfalso.
        destruct IH as [_ IH]. assert (Some n = None) by (apply IH; tauto).
        discriminate.
      * split; [| intros _; reflexivity]. intros _ [H|H]; [congruence|].
        destruct IH as [IH _]. exact (IH eq_refl H).
Qed.

(** X7: on a payload whose Mail is a non-empty string, the block lets the
    mail through exactly when it holds no "@". *)
Lemma check_mail_string (fields : gmap string jsval) (s : string) :
  fields !! "Mail" = Some (JStr s) -> s <> EmptyString ->
  check_mail (PObj fields) = Ok (JStr s) <-> ~ In "@"%char (list_ascii_of_string s).
Proof.
  intros Hm Hs. rewrite <- index_at_sign.
  unfold check_mail, required, prop. rewrite Hm.
  cbn [from_option id]. run. cbn [JS.truthy].
  apply String.eqb_neq in Hs. rewrite Hs. cbn [negb]. run.
  unfold JS.indexOf. destruct (String.index 0 "@" s) as [n|]; run.
  - replace (JS.gt (JNum (Int (Z.of_nat n))) (JNum (Int (-1)))) with true
      by (unfold JS.gt, JS.lt; simpl; symmetry; apply Z.ltb_lt; lia).
    run. split; discriminate.
  - split; reflexivity.
Qed.

(** C2: the handler rejects the mail a@x.com, which holds an "@", with the
    message that the mail must contain one, and lets a mail without "@"
    through the mail block. *)
Theorem mail_with_at_sign_rejected :
  apply (Encoded (Scenario.request "buy" "a@x.com" (JNum (Int 1234567890123456))))
        Scenario.empty
    = (Throw (InvalidTransaction "Mail must contain @ character"), Scenario.empty)
  /\ check_mail (Scenario.request "buy" "a@x.com" (JNum (Int 1234567890123456)))
    = Throw (InvalidTransaction "Mail must contain @ character")
  /\ check_mail (Scenario.request "buy" "ax.com" (JNum (Int 1234567890123456)))
    = Ok (JStr "ax.com").
Proof. split; [vm_refl|]. split; vm_refl. Qed.

(** *** The bank-account block (lines 181-191) *)

(** C9: an account number of sixteen digits, as a number or as a string, is
    rejected like every other value, and the transaction with it. *)
Theorem bankAccount_of_16_digits_rejected :
  check_bankAccount (Scenario.request "buy" "ax.com" (JNum (Int 1234567890123456)))
    = Throw (InvalidTransaction "Bank Account must be an integer of 20 numbers")
  /\ check_bankAccount (Scenario.request "buy" "ax.com" (JStr "1234567890123456"))
    = Throw (InvalidTransaction "Bank Account must be an integer of 20 numbers")
  /\ apply (Encoded (Scenario.request "buy" "ax.com" (JNum (Int 1234567890123456))))
           Scenario.empty
    = (Throw (InvalidTransaction "Bank Account must be an integer of 20 numbers"),
       Scenario.empty).
Proof. split; [vm_refl|]. split; vm_refl. Qed.

(** ** State transition *)

Lemma getState_own (ctx : context) (address : string) :
  filter (fun kv : string * buffer => kv.1 ∈ [address]) (entries ctx) !! address
  = entries ctx !! address.
Proof.
  rewrite map_lookup_filter. destruct (entries ctx !! address) as [b|]; simpl; [|reflexivity].
  rewrite option_guard_True; [reflexivity|]. simpl. apply list_elem_of_singleton. reflexivity.
Qed.

Lemma _setEntry_accepted (ctx : context) (address : string) (stateValue : gmap string slot) :
  accepts ctx address = true ->
  _setEntry address stateValue ctx = (Ok [address], written ctx address stateValue).
Proof.
  intros Ha. unfold _setEntry, setState, written, cbor.encode. cbv zeta.
  rewrite map_filter_singleton_True by exact Ha.
  rewrite map_to_list_singleton, <- insert_union_singleton_l. reflexivity.
Qed.

Lemma _setEntry_refused (ctx : context) (address : string) (stateValue : gmap string slot) :
  accepts ctx address = false ->
  _setEntry address stateValue ctx = (Ok [], ctx).
Proof.
  intros Ha. unfold _setEntry, setState, cbor.encode. cbv zeta.
  rewrite map_filter_singleton_False by (simpl; rewrite Ha; discriminate).
  rewrite map_to_list_empty, (left_id ∅ (∪)). destruct ctx; reflexivity.
Qed.

Lemma state_at_written (ctx : context) (address : string) (stateValue : gmap string slot) :
  state_at (written ctx address stateValue) address = stateValue.
Proof. unfold state_at, written. simpl. rewrite lookup_insert_eq. reflexivity. Qed.

(** *** "buy" *)

(** What [_applySet] does with the bytes found at its address. *)
Lemma _applySet_fresh (ctx : context) (address p : string)
    (name mail bankAccount placeAddress town province checkinDate checkoutDate
     days rainAmount startHour endHour refund total : jsval)
    (possibleAddressValues : gmap string buffer) :
  possibleAddressValues !! address = entries ctx !! address ->
  state_at ctx address !! p = None ->
  _applySet address name mail bankAccount placeAddress town province checkinDate
    checkoutDate days rainAmount startHour endHour refund (JStr p) total
    possibleAddressValues ctx
  = _setEntry address
      (<[ p := SObj (Entry.make name mail bankAccount placeAddress town province
                       checkinDate checkoutDate days rainAmount startHour endHour
                       refund total) ]> (state_at ctx address)) ctx.
Proof.
  intros Hv Hp. unfold _applySet, state_at in *. cbv zeta. rewrite Hv.
  destruct (entries ctx !! address) as [[|stateValue]|]; runM;
    cbn [cbor.length Z.ltb Z.compare].
  - reflexivity.
  - cbn [cbor.decodeFirstSync]. runM. unfold get_slot. cbn [JS.ToString].
    rewrite Hp. cbn [from_option slot_truthy JS.truthy]. runM. reflexivity.
  - reflexivity.
Qed.

Lemma _applySet_taken (ctx : context) (address p : string) (e : Entry.t)
    (name mail bankAccount placeAddress town province checkinDate checkoutDate
     days rainAmount startHour endHour refund total : jsval)
    (possibleAddressValues : gmap string buffer) :
  possibleAddressValues !! address = entries ctx !! address ->
  state_at ctx address !! p = Some (SObj e) ->
  _applySet address name mail bankAccount placeAddress town province checkinDate
    checkoutDate days rainAmount startHour endHour refund (JStr p) total
    possibleAddressValues ctx
  = (Throw (already_in_state (JStr p)), ctx).
Proof.
  intros Hv Hp. unfold _applySet, state_at in *. cbv zeta. rewrite Hv.
  destruct (entries ctx !! address) as [[|stateValue]|];
    try (rewrite lookup_empty in Hp; discriminate).
  runM. cbn [cbor.length Z.ltb Z.compare cbor.decodeFirstSync]. runM.
  unfold get_slot. cbn [JS.ToString]. rewrite Hp. cbn [from_option slot_truthy]. runM.
  reflexivity.
Qed.

Lemma dispatch_buy (f : Fields.t) (ctx : context) (p : string) :
  Fields.verb f = JStr "buy" ->
  Fields.purchase f = JStr p ->
  dispatch f ctx =
    match _applySet (address_of p) (Fields.name f) (Fields.mail f) (Fields.bankAccount f)
            (Fields.placeAddress f) (Fields.town f) (Fields.province f)
            (Fields.checkinDate f) (Fields.checkoutDate f) (Fields.days f)
            (Fields.rainAmount f) (Fields.startHour f) (Fields.endHour f)
            (Fields.refund f) (JStr p) (Fields.total f)
            (filter (fun kv : string * buffer => kv.1 ∈ [address_of p]) (entries ctx)) ctx with
    | (Ok addresses, ctx') =>
        if Z.of_nat (List.length addresses) =? 0
        then (Throw (InternalError "State error!"), ctx')
        else (Ok tt, ctx')
    | (Throw e, ctx') => (Throw e, ctx')
    end.
Proof.
  intros Hv Hp. unfold dispatch. rewrite Hv, Hp, make_address_of.
  change (select_action (JStr "buy")) with (Ok _applySet). runM.
  destruct (_applySet _ _ _ _ _ _ _ _ _ _ _ _ _ _ _ _ _ ctx) as [[addresses|e] ctx'];
    [|reflexivity].
  destruct (Z.of_nat (List.length addresses) =? 0); reflexivity.
Qed.

(** X21: a "buy" whose purchase id is a string, other than the name of a
    member of [Object.prototype], and has no entry at its address stores,
    under that id, the entry made of the fields (the stored refund is the
    refund of the fields) next to what the address held; a later "buy" with
    the same purchase id is rejected and leaves the state as it is. *)
Theorem buy_fresh_purchase (f : Fields.t) (ctx : context) (p : string) :
  Fields.verb f = JStr "buy" ->
  Fields.purchase f = JStr p ->
  Object_prototype_member p = false ->
  state_at ctx (address_of p) !! p = None ->
  accepts ctx (address_of p) = true ->
  exists ctx',
    dispatch f ctx = (Ok tt, ctx')
    /\ ctx' = written ctx (address_of p)
                (<[ p := SObj (entry_of f) ]> (state_at ctx (address_of p)))
    /\ state_at ctx' (address_of p) !! p = Some (SObj (entry_of f))
    /\ Entry.refund (entry_of f) = Fields.refund f
    /\ forall f2 : Fields.t,
         Fields.verb f2 = JStr "buy" ->
         Fields.purchase f2 = JStr p ->
         dispatch f2 ctx' = (Throw (already_in_state (JStr p)), ctx').
Proof.
  intros Hv Hp _ Hfresh Ha. eexists. split; [|split; [reflexivity|]].
  - rewrite (dispatch_buy f ctx p Hv Hp).
    rewrite (_applySet_fresh ctx (address_of p) p) by (apply getState_own || exact Hfresh).
    rewrite _setEntry_accepted by exact Ha. reflexivity.
  - split; [|split; [reflexivity|]].
    + rewrite state_at_written. apply lookup_insert_eq.
    + intros f2 Hv2 Hp2. rewrite (dispatch_buy f2 _ p Hv2 Hp2).
      erewrite _applySet_taken; [reflexivity | apply getState_own |].
      rewrite state_at_written. apply lookup_insert_eq.
Qed.

(** The hypotheses of X21 hold for the first purchase on an empty ledger. *)
Lemma buy_fresh_purchase_witness :
  exists ctx',
    dispatch (Scenario.fields "buy" "Ana" 0 "P1") Scenario.empty = (Ok tt, ctx')
    /\ ctx' = written Scenario.empty (address_of "P1")
                (<[ "P1" := SObj (entry_of (Scenario.fields "buy" "Ana" 0 "P1")) ]>
                   (state_at Scenario.empty (address_of "P1")))
    /\ state_at ctx' (address_of "P1") !! "P1"
       = Some (SObj (entry_of (Scenario.fields "buy" "Ana" 0 "P1")))
    /\ Entry.refund (entry_of (Scenario.fields "buy" "Ana" 0 "P1"))
       = Fields.refund (Scenario.fields "buy" "Ana" 0 "P1")
    /\ forall f2 : Fields.t,
         Fields.verb f2 = JStr "buy" ->
         Fields.purchase f2 = JStr "P1" ->
         dispatch f2 ctx' = (Throw (already_in_state (JStr "P1")), ctx').
Proof.
  apply (buy_fresh_purchase (Scenario.fields "buy" "Ana" 0 "P1") Scenario.empty "P1");
    vm_compute; reflexivity.
Defined.

(** C5: a "buy" with a fresh purchase id that is a number does not insert
    an entry.  The payload passes the presence check of the purchase, 0
    being neither null nor undefined; the transition then throws in the
    digest call and the state stays empty. *)
Theorem buy_with_purchase_number_throws :
  present (Cases.numbered_request "buy" 0) "Purchase" "Purchase number is required"
    = Ok (Fields.purchase (Cases.numbered "buy" 0))
  /\ exists message,
       dispatch (Cases.numbered "buy" 0) Scenario.empty
       = (Throw (TypeError message), Scenario.empty).
Proof.
  split; [vm_refl|]. eexists. reflexivity.
Qed.

(** C6: "buy" stores the refund of the payload unchecked: a refund of -1
    and one of 4294967296 are accepted and written. *)
Theorem buy_stores_refund_out_of_range :
  dispatch (Scenario.fields "buy" "Ana" (-1) "P1") Scenario.empty
    = (Ok tt, written Scenario.empty (address_of "P1")
                {[ "P1" := SObj (entry_of (Scenario.fields "buy" "Ana" (-1) "P1")) ]})
  /\ Entry.refund (entry_of (Scenario.fields "buy" "Ana" (-1) "P1"))
     = JNum (Int (MIN_VALUE - 1))
  /\ dispatch (Scenario.fields "buy" "Ana" 4294967296 "P1") Scenario.empty
    = (Ok tt, written Scenario.empty (address_of "P1")
                {[ "P1" := SObj (entry_of (Scenario.fields "buy" "Ana" 4294967296 "P1")) ]})
  /\ Entry.refund (entry_of (Scenario.fields "buy" "Ana" 4294967296 "P1"))
     = JNum (Int (MAX_VALUE + 1)).
Proof.
  split; [vm_refl|]. split; [reflexivity|]. split; [vm_refl | reflexivity].
Qed.

(** *** "calculate" and "getData" *)



(** X5: fed a numeric property and a numeric operand, [_applyDec] stores
    the difference when it lies between [MIN_VALUE] and [MAX_VALUE], the
    other properties being kept, and rejects it otherwise without
    writing. *)
Lemma _applyDec_numeric (ctx : context) (address key : string) (x d : Z)
    (possibleAddressValues : gmap string buffer) :
  possibleAddressValues !! address = entries ctx !! address ->
  state_at ctx address !! key = Some (SVal (JNum (Int x))) ->
  accepts ctx address = true ->
  _applyDec address (JStr key) (JNum (Int d)) possibleAddressValues ctx =
    if x - d <? MIN_VALUE then (Throw (below_minimum "dec"), ctx)
    else if MAX_VALUE <? x - d then (Throw (above_maximum "dec"), ctx)
    else (Ok [address],
          written ctx address (<[ key := SVal (JNum (Int (x - d))) ]> (state_at ctx address))).
Proof.
  intros Hv Hk Ha. unfold _applyDec, _applyOperator, state_at in *. cbv zeta. rewrite Hv.
  destruct (entries ctx !! address) as [[|stateValue]|];
    try (rewrite lookup_empty in Hk; discriminate).
  cbn [cbor.length Z.eqb cbor.decodeFirstSync]. runM.
  unfold get_slot. cbn [JS.ToString]. rewrite Hk.
  cbn [from_option id slot_nullish JS.nullish sub ToPrimitive JS.ToNumber JS.num_sub
       JS.gt JS.lt JS.num_lt].
  destruct (x - d <? MIN_VALUE); [reflexivity|].
  destruct (MAX_VALUE <? x - d); [reflexivity|].
  apply _setEntry_accepted. exact Ha.
Qed.

(** X6: fed a numeric property and a numeric operand, [_applyInc] stores
    the sum when it lies between [MIN_VALUE] and [MAX_VALUE], the other
    properties being kept, and rejects it otherwise without writing. *)
Lemma _applyInc_numeric (ctx : context) (address key : string) (x d : Z)
    (possibleAddressValues : gmap string buffer) :
  possibleAddressValues !! address = entries ctx !! address ->
  state_at ctx address !! key = Some (SVal (JNum (Int x))) ->
  accepts ctx address = true ->
  _applyInc address (JStr key) (JNum (Int d)) possibleAddressValues ctx =
    if x + d <? MIN_VALUE then (Throw (below_minimum "inc"), ctx)
    else if MAX_VALUE <? x + d then (Throw (above_maximum "inc"), ctx)
    else (Ok [address],
          written ctx address (<[ key := SVal (JNum (Int (x + d))) ]> (state_at ctx address))).
Proof.
  intros Hv Hk Ha. unfold _applyInc, _applyOperator, state_at in *. cbv zeta. rewrite Hv.
  destruct (entries ctx !! address) as [[|stateValue]|];
    try (rewrite lookup_empty in Hk; discriminate).
  cbn [cbor.length Z.eqb cbor.decodeFirstSync]. runM.
  unfold get_slot. cbn [JS.ToString]. rewrite Hk.
  cbn [from_option id slot_nullish JS.nullish add ToPrimitive JS.ToNumber JS.num_add
       JS.gt JS.lt JS.num_lt].
  destruct (x + d <? MIN_VALUE); [reflexivity|].
  destruct (MAX_VALUE <? x + d); [reflexivity|].
  apply _setEntry_accepted. exact Ha.
Qed.

(** C3: with the entry of purchase P1 in state at refund 100, "calculate"
    for P1 with a delta of 10 does not store 90.  Sent under the customer's
    name it is rejected as not in state; sent under a Name equal to the
    purchase id it is accepted and replaces the whole entry by NaN. *)
Theorem calculate_does_not_decrement_refund :
  dispatch (Scenario.fields "calculate" "Ana" 10 "P1") (Scenario.bought "P1" "P1")
    = (Throw (not_in_state "dec"), Scenario.bought "P1" "P1")
  /\ dispatch (Scenario.fields "calculate" "P1" 10 "P1") (Scenario.bought "P1" "P1")
    = (Ok tt, written (Scenario.bought "P1" "P1") (address_of "P1")
                {[ "P1" := SVal (JNum NaN) ]}).
Proof. split; vm_refl. Qed.

(** C4: with the entry of purchase P1 in state at refund 100, "getData" for
    P1 with a delta of 10 does not store 110.  Sent under the customer's
    name it is rejected as not in state; sent under a Name equal to the
    purchase id it is accepted and replaces the whole entry by a string. *)
Theorem getData_does_not_increment_refund :
  dispatch (Scenario.fields "getData" "Ana" 10 "P1") (Scenario.bought "P1" "P1")
    = (Throw (not_in_state "inc"), Scenario.bought "P1" "P1")
  /\ dispatch (Scenario.fields "getData" "P1" 10 "P1") (Scenario.bought "P1" "P1")
    = (Ok tt, written (Scenario.bought "P1" "P1") (address_of "P1")
                {[ "P1" := SVal (JStr "[object Object]ana.example.org") ]}).
Proof. split; vm_refl. Qed.

(** C7: purchase P2 has no entry, the state object at its address holding
    only the entry of P1; "calculate" for P2 sent under the Name P1 is
    accepted all the same, and the state changes. *)
Theorem calculate_accepted_without_entry :
  state_at (Scenario.bought "P2" "P1") (address_of "P2") !! "P2" = None
  /\ dispatch (Scenario.fields "calculate" "P1" 10 "P2") (Scenario.bought "P2" "P1")
    = (Ok tt, written (Scenario.bought "P2" "P1") (address_of "P2")
                {[ "P1" := SVal (JNum NaN) ]}).
Proof. split; vm_refl. Qed.

(** *** Unrecognised verbs *)





(** *** No partial write *)

Lemma _applySet_throws_or_writes (ctx : context) (address : string)
    (name mail bankAccount placeAddress town province checkinDate checkoutDate
     days rainAmount startHour endHour refund purchase total : jsval)
    (possibleAddressValues : gmap string buffer) :
  throws_or_writes address
    (_applySet address name mail bankAccount placeAddress town province checkinDate
       checkoutDate days rainAmount startHour endHour refund purchase total
       possibleAddressValues) ctx.
Proof.
  unfold throws_or_writes, _applySet. cbv zeta.
  destruct (possibleAddressValues !! address) as [[|stateValue]|]; runM;
    cbn [cbor.length Z.ltb Z.compare cbor.decodeFirstSync];
    try (right; eexists; reflexivity).
  destruct (slot_truthy (get_slot stateValue purchase));
    [left | right]; eexists; reflexivity.
Qed.

Lemma _applyOperator_throws_or_writes (verb : string) (op : slot -> jsval -> jsval)
    (ctx : context) (address : string) (name value : jsval)
    (possibleAddressValues : gmap string buffer) :
  throws_or_writes address
    (_applyOperator verb op address name value possibleAddressValues) ctx.
Proof.
  unfold throws_or_writes, _applyOperator. cbv zeta.
  destruct (possibleAddressValues !! address) as [[|stateValue]|]; runM;
    cbn [cbor.length Z.eqb cbor.decodeFirstSync];
    try (left; eexists; reflexivity).
  destruct (slot_nullish (get_slot stateValue name)); [left; eexists; reflexivity|].
  destruct (JS.lt _ _); [left; eexists; reflexivity|].
  destruct (JS.gt _ _); [left; eexists; reflexivity|].
  right; eexists; reflexivity.
Qed.

Lemma select_action_throws_or_writes (verb : jsval) (actionFn : action) (ctx : context)
    (address : string)
    (name mail bankAccount placeAddress town province checkinDate checkoutDate
     days rainAmount startHour endHour refund purchase total : jsval)
    (possibleAddressValues : gmap string buffer) :
  select_action verb = Ok actionFn ->
  throws_or_writes address
    (actionFn address name mail bankAccount placeAddress town province checkinDate
       checkoutDate days rainAmount startHour endHour refund purchase total
       possibleAddressValues) ctx.
Proof.
  unfold select_action.
  destruct (JS.strict_eq verb (JStr "buy"));
    [intros [= <-]; apply _applySet_throws_or_writes|].
  destruct (JS.strict_eq verb (JStr "calculate"));
    [intros [= <-]; apply _applyOperator_throws_or_writes|].
  destruct (JS.strict_eq verb (JStr "getData"));
    [intros [= <-]; apply _applyOperator_throws_or_writes|].
  discriminate.
Qed.

(** X2: a transition that does not resolve leaves the context as it found
    it: every rejection is thrown before the write, and the internal error
    follows a write that did not take effect. *)
Lemma dispatch_throw_no_write (f : Fields.t) (ctx ctx' : context) (e : exn) :
  dispatch f ctx = (Throw e, ctx') -> ctx' = ctx.
Proof.
  unfold dispatch.
  destruct (select_action (Fields.verb f)) as [actionFn|e0] eqn:Hs; runM;
    [| intros [= _ <-]; reflexivity].
  destruct (make_address (Fields.purchase f)) as [address|e0]; runM;
    [| intros [= _ <-]; reflexivity].
  match goal with
  | |- context [actionFn ?a ?x1 ?x2 ?x3 ?x4 ?x5 ?x6 ?x7 ?x8 ?x9 ?x10 ?x11 ?x12 ?x13 ?x14 ?x15 ?v ctx] =>
      destruct (select_action_throws_or_writes (Fields.verb f) actionFn ctx a
                  x1 x2 x3 x4 x5 x6 x7 x8 x9 x10 x11 x12 x13 x14 x15 v Hs)
        as [[e0 ->]|[stateValue ->]]
  end.
  - intros [= _ <-]; reflexivity.
  - destruct (accepts ctx address) eqn:Ha.
    + rewrite _setEntry_accepted by exact Ha. cbn. discriminate.
    + rewrite _setEntry_refused by exact Ha. cbn. intros [= _ <-]; reflexivity.
Qed.

(** ** Further properties of the entry point *)

(** X1: bytes that do not decode end [apply] in an internal error carrying
    the decoder's message; a payload that decodes never does, it ends in
    the exception of its validation.  In both cases nothing resolves and
    the context is returned as it was. *)
Theorem apply_never_resolves (w : wire) (ctx : context) :
  exists e,
    apply w ctx = (Throw e, ctx)
    /\ match w with
       | Malformed message => e = InternalError message
       | Encoded update => validate update = Throw e /\ raised_by_check e
       end.
Proof.
  destruct w as [update|message].
  - destruct (validate_throws update) as (e & Hv & He).
    exists e. split; [apply apply_validate_first; exact Hv | split; assumption].
  - exists (InternalError message). split; reflexivity.
Qed.

(** X12: a payload that decodes to a primitive instead of a map: null and
    undefined make the read of the verb throw a TypeError, any other
    primitive is rejected for its missing verb. *)
Theorem apply_primitive_payload (v : jsval) (ctx : context) :
  apply (Encoded (PVal v)) ctx =
    (Throw (if JS.nullish v
            then TypeError "Cannot read property Verb of null or undefined"
            else InvalidTransaction "Verb is required"), ctx).
Proof. destruct v; reflexivity. Qed.

(** ** Further properties of validation *)

Lemma prop_map_agree (fields fields' : gmap string jsval) (key : string) :
  fields !! key = fields' !! key -> prop (PObj fields) key = prop (PObj fields') key.
Proof. intros H. unfold prop. rewrite H. reflexivity. Qed.

(** X11: the outcome of validation is decided by the Verb, Name, Mail and
    BankAccount of the payload alone: the checks of the twelve fields that
    follow are never reached. *)
Theorem validate_ignores_later_fields (fields fields' : gmap string jsval) :
  fields !! "Verb" = fields' !! "Verb" ->
  fields !! "Name" = fields' !! "Name" ->
  fields !! "Mail" = fields' !! "Mail" ->
  fields !! "BankAccount" = fields' !! "BankAccount" ->
  validate (PObj fields) = validate (PObj fields').
Proof.
  intros Hv Hn Hm Hb.
  unfold validate, check_verb, check_name, check_mail, check_bankAccount, required, present.
  rewrite (prop_map_agree fields fields' "Verb" Hv), (prop_map_agree fields fields' "Name" Hn),
    (prop_map_agree fields fields' "Mail" Hm), (prop_map_agree fields fields' "BankAccount" Hb).
  fold (required (PObj fields') "Verb" "Verb is required").
  destruct (required (PObj fields') "Verb" "Verb is required"); run; [|reflexivity].
  fold (required (PObj fields') "Name" "Name is required").
  fold (check_name (PObj fields')).
  destruct (check_name (PObj fields')); run; [|reflexivity].
  fold (required (PObj fields') "Mail" "Mail is required").
  fold (check_mail (PObj fields')).
  destruct (check_mail (PObj fields')); run; [|reflexivity].
  fold (present (PObj fields') "BankAccount" "Bank account is required").
  fold (check_bankAccount (PObj fields')).
  destruct (check_bankAccount_throws (PObj fields')) as (e & -> & _). reflexivity.
Qed.

(** X18: a Verb that is missing or falsy (undefined, null, false, 0, NaN,
    the empty string) is reported first, and after it a Name that is
    missing or falsy, whatever the other fields hold. *)
Theorem validate_missing_verb_or_name (fields : gmap string jsval) :
  JS.truthy (default JUndefined (fields !! "Verb")) = false
  \/ JS.truthy (default JUndefined (fields !! "Name")) = false ->
  validate (PObj fields) =
    Throw (InvalidTransaction
             (if JS.truthy (default JUndefined (fields !! "Verb"))
              then "Name is required" else "Verb is required")).
Proof.
  intros H. unfold validate, check_verb, check_name, required, prop. run.
  destruct (JS.truthy (default JUndefined (fields !! "Verb"))); run; [|reflexivity].
  destruct H as [H|H]; [discriminate|]. rewrite H. reflexivity.
Qed.

(** X8: on a Name that is a non-empty string the name block enforces the
    bound of 20 characters: the name passes when it has at most 20 and is
    rejected otherwise. *)
Theorem check_name_string (fields : gmap string jsval) (s : string) :
  fields !! "Name" = Some (JStr s) -> s <> EmptyString ->
  check_name (PObj fields) =
    if Z.of_nat (String.length s) <=? MAX_NAME_LENGTH
    then Ok (JStr s)
    else Throw (InvalidTransaction "Name must be a string of no more than 20 characters").
Proof.
  intros Hn Hs. unfold check_name, required, prop. rewrite Hn.
  cbn [from_option id]. run. cbn [JS.truthy].
  apply String.eqb_neq in Hs. rewrite Hs. cbn [negb]. run.
  unfold JS.gt, JS.lt. cbn [JS.length JS.ToNumber JS.num_lt].
  rewrite Z.leb_antisym.
  destruct (MAX_NAME_LENGTH <? Z.of_nat (String.length s)); reflexivity.
Qed.

(** X9: the bound applies to strings only: a truthy Name that is a number
    or a boolean has no [length] and passes the name block. *)
Theorem check_name_non_string (fields : gmap string jsval) (v : jsval) :
  fields !! "Name" = Some v -> JS.truthy v = true -> (forall s, v <> JStr s) ->
  check_name (PObj fields) = Ok v.
Proof.
  intros Hn Ht Hs. unfold check_name, required, prop. rewrite Hn.
  cbn [from_option id]. run. rewrite Ht. cbn [negb]. run.
  destruct v as [| |b|n|s]; try reflexivity. exfalso. exact (Hs s eq_refl).
Qed.

(** X10: a truthy Mail that is not a string has no [indexOf]: the mail
    block fails with a TypeError, which is not a rejection. *)
Theorem check_mail_non_string (fields : gmap string jsval) (v : jsval) :
  fields !! "Mail" = Some v -> JS.truthy v = true -> (forall s, v <> JStr s) ->
  check_mail (PObj fields) = Throw (TypeError "indexOf is not a function").
Proof.
  intros Hn Ht Hs. unfold check_mail, required, prop. rewrite Hn.
  cbn [from_option id]. run. rewrite Ht. cbn [negb]. run.
  destruct v as [| |b|n|s]; try reflexivity. exfalso. exact (Hs s eq_refl).
Qed.

(** ** Further properties of the state transition *)

Lemma prefix_append (a b : string) : String.prefix a (a +:+ b) = true.
Proof.
  induction a as [|c a IH]; [destruct b; reflexivity|].
  change (String c a +:+ b) with (String c (a +:+ b)). cbn [String.prefix].
  destruct (ascii_dec c c) as [_|H]; [exact IH | contradiction].
Qed.

(** Every address derived from a purchase id lies in the namespace the
    handler registers for. *)
Lemma address_in_namespace (p : string) :
  Exists (fun ns => String.prefix ns (address_of p) = true) (namespaces SeguroLluviaHandler).
Proof. apply Exists_cons_hd. apply prefix_append. Qed.

Lemma dispatch_calculate (f : Fields.t) (ctx : context) (p : string) :
  Fields.verb f = JStr "calculate" ->
  Fields.purchase f = JStr p ->
  dispatch f ctx =
    settled (_applyDec (address_of p) (Fields.name f) (Fields.mail f)
               (filter (fun kv : string * buffer => kv.1 ∈ [address_of p]) (entries ctx)) ctx).
Proof.
  intros Hv Hp. unfold dispatch, settled. rewrite Hv, Hp, make_address_of.
  change (select_action (JStr "calculate")) with (Ok (four_parameters _applyDec)).
  runM. unfold four_parameters.
  destruct (_applyDec _ _ _ _ ctx) as [[addresses|e] ctx']; [|reflexivity].
  destruct (Z.of_nat (List.length addresses) =? 0); reflexivity.
Qed.


(** [_applySet] on the bytes found at its address, in every case. *)
Lemma _applySet_outcome (ctx : context) (address p : string)
    (name mail bankAccount placeAddress town province checkinDate checkoutDate
     days rainAmount startHour endHour refund total : jsval)
    (possibleAddressValues : gmap string buffer) :
  possibleAddressValues !! address = entries ctx !! address ->
  _applySet address name mail bankAccount placeAddress town province checkinDate
    checkoutDate days rainAmount startHour endHour refund (JStr p) total
    possibleAddressValues ctx
  = if slot_truthy (get_slot (state_at ctx address) (JStr p))
    then (Throw (already_in_state (JStr p)), ctx)
    else _setEntry address
           (<[ p := SObj (Entry.make name mail bankAccount placeAddress town province
                            checkinDate checkoutDate days rainAmount startHour endHour
                            refund total) ]> (state_at ctx address)) ctx.
Proof.
  intros Hv. unfold _applySet, state_at. cbv zeta. rewrite Hv.
  destruct (entries ctx !! address) as [[|stateValue]|]; runM;
    cbn [cbor.length Z.ltb Z.compare cbor.decodeFirstSync]; try reflexivity.
  cbn [JS.ToString].
  destruct (slot_truthy (get_slot stateValue (JStr p))); reflexivity.
Qed.

(** [_applyDec] on a property that holds an entry: the difference is NaN,
    which neither bound rejects. *)
Lemma _applyDec_entry (ctx : context) (address : string) (name value : jsval) (e : Entry.t)
    (possibleAddressValues : gmap string buffer) :
  possibleAddressValues !! address = entries ctx !! address ->
  state_at ctx address !! JS.ToString name = Some (SObj e) ->
  _applyDec address name value possibleAddressValues ctx
  = _setEntry address (<[ JS.ToString name := SVal (JNum NaN) ]> (state_at ctx address)) ctx.
Proof.
  intros Hv Hk. unfold _applyDec, _applyOperator, state_at in *. cbv zeta. rewrite Hv.
  destruct (entries ctx !! address) as [[|stateValue]|];
    try (rewrite lookup_empty in Hk; discriminate).
  cbn [cbor.length Z.eqb cbor.decodeFirstSync]. runM.
  unfold get_slot. rewrite Hk. cbn [from_option id slot_nullish sub ToPrimitive].
  change (JS.ToNumber (JStr "[object Object]")) with NaN.
  cbn [JS.num_sub JS.lt JS.gt JS.ToNumber JS.num_lt].
  destruct (JS.ToNumber value); reflexivity.
Qed.

(** X3: a transition that resolves has written one address and no other:
    the address derived from the purchase id lies in the namespace the
    handler registers for and is one the gateway accepts; every other
    entry of the ledger is as it was. *)
Theorem dispatch_ok_writes_one_address (f : Fields.t) (ctx ctx' : context) :
  dispatch f ctx = (Ok tt, ctx') ->
  exists (address : string) (stateValue : gmap string slot),
    make_address (Fields.purchase f) = Ok address
    /\ accepts ctx address = true
    /\ Exists (fun ns => String.prefix ns address = true)
              (namespaces SeguroLluviaHandler)
    /\ ctx' = written ctx address stateValue
    /\ forall a : string, a <> address -> entries ctx' !! a = entries ctx !! a.
Proof.
  unfold dispatch.
  destruct (select_action (Fields.verb f)) as [actionFn|e0] eqn:Hs; runM; [|discriminate].
  destruct (make_address (Fields.purchase f)) as [address|e0] eqn:Hm; [|discriminate].
  assert (Hns : Exists (fun ns => String.prefix ns address = true)
                       (namespaces SeguroLluviaHandler)).
  { unfold make_address in Hm.
    destruct (_hash (Fields.purchase f)) as [digest|]; [|discriminate].
    injection Hm as <-. apply Exists_cons_hd. apply prefix_append. }
  match goal with
  | |- context [actionFn ?a ?x1 ?x2 ?x3 ?x4 ?x5 ?x6 ?x7 ?x8 ?x9 ?x10 ?x11 ?x12 ?x13 ?x14 ?x15 ?v ctx] =>
      destruct (select_action_throws_or_writes (Fields.verb f) actionFn ctx a
                  x1 x2 x3 x4 x5 x6 x7 x8 x9 x10 x11 x12 x13 x14 x15 v Hs)
        as [[e0 ->]|[stateValue ->]]
  end; [discriminate|].
  destruct (accepts ctx address) eqn:Ha.
  - rewrite _setEntry_accepted by exact Ha. cbn [List.length Z.of_nat Z.eqb Pos.of_succ_nat].
    intros [= <-]. exists address, stateValue.
    split; [reflexivity|]. split; [exact Ha|]. split; [exact Hns|]. split; [reflexivity|].
    intros a Hne. unfold written. cbn [entries]. apply lookup_insert_ne. congruence.
  - rewrite _setEntry_refused by exact Ha. cbn [List.length Z.of_nat Z.eqb]. discriminate.
Qed.


(** X13: for a purchase id that is a string, other than the name of a
    member of [Object.prototype], what "buy" does is decided by the
    truthiness of the property that the state object holds under the
    purchase id: a truthy one (an entry, a non-empty string, a non-zero
    number) rejects the transaction; a missing or falsy one (null, 0, NaN,
    the empty string) is replaced by the new entry, the other properties
    being kept. *)
Theorem buy_outcome (f : Fields.t) (ctx : context) (p : string) :
  Fields.verb f = JStr "buy" ->
  Fields.purchase f = JStr p ->
  Object_prototype_member p = false ->
  accepts ctx (address_of p) = true ->
  dispatch f ctx =
    if slot_truthy (get_slot (state_at ctx (address_of p)) (JStr p))
    then (Throw (already_in_state (JStr p)), ctx)
    else (Ok tt, written ctx (address_of p)
                   (<[ p := SObj (entry_of f) ]> (state_at ctx (address_of p)))).
Proof.
  intros Hv Hp _ Ha. rewrite (dispatch_buy f ctx p Hv Hp).
  rewrite _applySet_outcome by apply getState_own.
  destruct (slot_truthy _); [reflexivity|].
  rewrite _setEntry_accepted by exact Ha. reflexivity.
Qed.


(** X15: for "calculate" and "getData" the transition depends on the Verb,
    the Name, the Mail and the Purchase alone: two transactions that agree
    on these have the same outcome, whatever their Refund and other
    fields. *)
Theorem operator_ignores_refund (f f' : Fields.t) (ctx : context) :
  Fields.verb f = JStr "calculate" \/ Fields.verb f = JStr "getData" ->
  Fields.verb f' = Fields.verb f ->
  Fields.name f' = Fields.name f ->
  Fields.mail f' = Fields.mail f ->
  Fields.purchase f' = Fields.purchase f ->
  dispatch f' ctx = dispatch f ctx.
Proof.
  intros Hv Hv' Hn Hm Hp. unfold dispatch. rewrite Hv', Hn, Hm, Hp.
  destruct Hv as [-> | ->].
  - change (select_action (JStr "calculate")) with (Ok (four_parameters _applyDec)).
    reflexivity.
  - change (select_action (JStr "getData")) with (Ok (four_parameters _applyInc)).
    reflexivity.
Qed.


(** X17: "calculate" and "buy" compose into a second purchase under one
    id: once "calculate", sent under a Name equal to the purchase id, has
    replaced the entry by NaN, a "buy" of the same id is accepted again and
    its entry stored. *)
Theorem calculate_then_buy_again (fc fb : Fields.t) (ctx : context) (p : string) (e : Entry.t) :
  Fields.verb fc = JStr "calculate" ->
  Fields.name fc = JStr p ->
  Fields.purchase fc = JStr p ->
  Fields.verb fb = JStr "buy" ->
  Fields.purchase fb = JStr p ->
  state_at ctx (address_of p) !! p = Some (SObj e) ->
  accepts ctx (address_of p) = true ->
  exists ctx1 ctx2,
    dispatch fc ctx = (Ok tt, ctx1)
    /\ dispatch fb ctx1 = (Ok tt, ctx2)
    /\ state_at ctx1 (address_of p) !! p = Some (SVal (JNum NaN))
    /\ state_at ctx2 (address_of p) !! p = Some (SObj (entry_of fb)).
Proof.
  intros Hvc Hnc Hpc Hvb Hpb Hk Ha. eexists. eexists.
  split; [|split; [|split]].
  - rewrite (dispatch_calculate fc ctx p Hvc Hpc), Hnc.
    rewrite (_applyDec_entry ctx (address_of p) _ _ e) by (apply getState_own || exact Hk).
    rewrite _setEntry_accepted by exact Ha. reflexivity.
  - rewrite (dispatch_buy fb _ p Hvb Hpb).
    rewrite _applySet_outcome by apply getState_own.
    rewrite state_at_written. unfold get_slot. cbn [JS.ToString].
    rewrite lookup_insert_eq. cbn [from_option id slot_truthy JS.truthy].
    rewrite _setEntry_accepted by exact Ha. reflexivity.
  - rewrite state_at_written. cbn [JS.ToString]. apply lookup_insert_eq.
  - rewrite state_at_written. apply lookup_insert_eq.
Qed.

(** *** The string of an entry is not a number *)








(** X20: with one of the three verbs and a purchase id that is a number or
    a boolean, the transition ends in the TypeError of the digest before
    the state is read, and the context is as it was. *)
Theorem dispatch_non_string_purchase (f : Fields.t) (ctx : context) :
  Fields.verb f = JStr "buy" \/ Fields.verb f = JStr "calculate"
  \/ Fields.verb f = JStr "getData" ->
  (exists n, Fields.purchase f = JNum n) \/ (exists b, Fields.purchase f = JBool b) ->
  exists message, dispatch f ctx = (Throw (TypeError message), ctx).
Proof.
  intros Hv Hp. unfold dispatch.
  assert (Hs : exists actionFn, select_action (Fields.verb f) = Ok actionFn).
  { destruct Hv as [-> | [-> | ->]]; eexists; reflexivity. }
  destruct Hs as [actionFn ->]. runM.
  destruct Hp as [[n ->] | [b ->]]; eexists; reflexivity.
Qed.

(** ** The hypotheses of these properties hold on concrete transactions *)

Lemma dispatch_throw_no_write_witness :
  dispatch (Scenario.fields "buy" "Ana" 0 "P1") (Scenario.bought "P1" "P1")
    = (Throw (already_in_state (JStr "P1")), Scenario.bought "P1" "P1")
  /\ Scenario.bought "P1" "P1" = Scenario.bought "P1" "P1".
Proof.
  assert (H : dispatch (Scenario.fields "buy" "Ana" 0 "P1") (Scenario.bought "P1" "P1")
              = (Throw (already_in_state (JStr "P1")), Scenario.bought "P1" "P1"))
    by vm_refl.
  split; [exact H|].
  exact (dispatch_throw_no_write _ _ _ _ H).
Defined.

Lemma dispatch_ok_writes_one_address_witness :
  exists (address : string) (stateValue : gmap string slot),
    make_address (Fields.purchase (Scenario.fields "buy" "Ana" 0 "P1")) = Ok address
    /\ accepts Scenario.empty address = true
    /\ Exists (fun ns => String.prefix ns address = true)
              (namespaces SeguroLluviaHandler)
    /\ written Scenario.empty (address_of "P1")
         {[ "P1" := SObj (entry_of (Scenario.fields "buy" "Ana" 0 "P1")) ]}
       = written Scenario.empty address stateValue
    /\ forall a : string, a <> address ->
         entries (written Scenario.empty (address_of "P1")
                    {[ "P1" := SObj (entry_of (Scenario.fields "buy" "Ana" 0 "P1")) ]}) !! a
         = entries Scenario.empty !! a.
Proof.
  apply (dispatch_ok_writes_one_address (Scenario.fields "buy" "Ana" 0 "P1") Scenario.empty).
  vm_refl.
Defined.


Lemma _applyDec_numeric_witness :
  _applyDec "a1" (JStr "k") (JNum (Int 30)) (entries (Cases.counter "a1" "k" 100))
    (Cases.counter "a1" "k" 100) =
    if 100 - 30 <? MIN_VALUE then (Throw (below_minimum "dec"), Cases.counter "a1" "k" 100)
    else if MAX_VALUE <? 100 - 30
         then (Throw (above_maximum "dec"), Cases.counter "a1" "k" 100)
         else (Ok ["a1"],
               written (Cases.counter "a1" "k" 100) "a1"
                 (<[ "k" := SVal (JNum (Int (100 - 30))) ]>
                    (state_at (Cases.counter "a1" "k" 100) "a1"))).
Proof.
  apply (_applyDec_numeric (Cases.counter "a1" "k" 100) "a1" "k" 100 30);
    vm_compute; reflexivity.
Defined.

Lemma _applyInc_numeric_witness :
  _applyInc "a1" (JStr "k") (JNum (Int 30)) (entries (Cases.counter "a1" "k" 100))
    (Cases.counter "a1" "k" 100) =
    if 100 + 30 <? MIN_VALUE then (Throw (below_minimum "inc"), Cases.counter "a1" "k" 100)
    else if MAX_VALUE <? 100 + 30
         then (Throw (above_maximum "inc"), Cases.counter "a1" "k" 100)
         else (Ok ["a1"],
               written (Cases.counter "a1" "k" 100) "a1"
                 (<[ "k" := SVal (JNum (Int (100 + 30))) ]>
                    (state_at (Cases.counter "a1" "k" 100) "a1"))).
Proof.
  apply (_applyInc_numeric (Cases.counter "a1" "k" 100) "a1" "k" 100 30);
    vm_compute; reflexivity.
Defined.

Lemma check_mail_string_witness :
  check_mail (PObj {[ "Mail" := JStr "ax.com" ]}) = Ok (JStr "ax.com")
  <-> ~ In "@"%char (list_ascii_of_string "ax.com").
Proof.
  apply (check_mail_string {[ "Mail" := JStr "ax.com" ]} "ax.com");
    [vm_compute; reflexivity | discriminate].
Defined.

Lemma check_name_string_witness :
  check_name (PObj {[ "Name" := JStr "Ana" ]}) =
    if Z.of_nat (String.length "Ana") <=? MAX_NAME_LENGTH
    then Ok (JStr "Ana")
    else Throw (InvalidTransaction "Name must be a string of no more than 20 characters").
Proof.
  apply (check_name_string {[ "Name" := JStr "Ana" ]} "Ana");
    [vm_compute; reflexivity | discriminate].
Defined.

Lemma check_name_non_string_witness :
  check_name (PObj {[ "Name" := JNum (Int 5) ]}) = Ok (JNum (Int 5)).
Proof.
  apply (check_name_non_string {[ "Name" := JNum (Int 5) ]} (JNum (Int 5)));
    [vm_compute; reflexivity | reflexivity | intros s; discriminate].
Defined.

Lemma check_mail_non_string_witness :
  check_mail (PObj {[ "Mail" := JNum (Int 5) ]}) = Throw (TypeError "indexOf is not a function").
Proof.
  apply (check_mail_non_string {[ "Mail" := JNum (Int 5) ]} (JNum (Int 5)));
    [vm_compute; reflexivity | reflexivity | intros s; discriminate].
Defined.

Lemma validate_ignores_later_fields_witness :
  validate (PObj (<[ "Town" := JStr "Bilbao" ]> {[ "Verb" := JStr "buy" ]}))
  = validate (PObj {[ "Verb" := JStr "buy" ]}).
Proof.
  apply (validate_ignores_later_fields
           (<[ "Town" := JStr "Bilbao" ]> {[ "Verb" := JStr "buy" ]})
           {[ "Verb" := JStr "buy" ]});
    vm_compute; reflexivity.
Defined.

Lemma buy_outcome_witness :
  dispatch (Scenario.fields "buy" "Ana" 0 "P1") Scenario.empty =
    if slot_truthy (get_slot (state_at Scenario.empty (address_of "P1")) (JStr "P1"))
    then (Throw (already_in_state (JStr "P1")), Scenario.empty)
    else (Ok tt, written Scenario.empty (address_of "P1")
                   (<[ "P1" := SObj (entry_of (Scenario.fields "buy" "Ana" 0 "P1")) ]>
                      (state_at Scenario.empty (address_of "P1")))).
Proof.
  apply (buy_outcome (Scenario.fields "buy" "Ana" 0 "P1") Scenario.empty "P1");
    vm_compute; reflexivity.
Defined.



Lemma operator_ignores_refund_witness :
  dispatch (Scenario.fields "calculate" "Ana" 999 "P1") (Scenario.bought "P1" "P1")
  = dispatch (Scenario.fields "calculate" "Ana" 10 "P1") (Scenario.bought "P1" "P1").
Proof.
  apply (operator_ignores_refund (Scenario.fields "calculate" "Ana" 10 "P1")
           (Scenario.fields "calculate" "Ana" 999 "P1") (Scenario.bought "P1" "P1"));
    [left; reflexivity | reflexivity | reflexivity | reflexivity | reflexivity].
Defined.


Lemma calculate_then_buy_again_witness :
  exists ctx1 ctx2,
    dispatch (Scenario.fields "calculate" "P1" 10 "P1") (Scenario.bought "P1" "P1") = (Ok tt, ctx1)
    /\ dispatch (Scenario.fields "buy" "Ana" 5 "P1") ctx1 = (Ok tt, ctx2)
    /\ state_at ctx1 (address_of "P1") !! "P1" = Some (SVal (JNum NaN))
    /\ state_at ctx2 (address_of "P1") !! "P1"
       = Some (SObj (entry_of (Scenario.fields "buy" "Ana" 5 "P1"))).
Proof.
  apply (calculate_then_buy_again (Scenario.fields "calculate" "P1" 10 "P1")
           (Scenario.fields "buy" "Ana" 5 "P1") (Scenario.bought "P1" "P1") "P1"
           (entry_of (Scenario.fields "buy" "Ana" 100 "P1")));
    vm_compute; reflexivity.
Defined.

Lemma validate_missing_verb_or_name_witness :
  validate (PObj {[ "Verb" := JNum (Int 0) ]}) =
    Throw (InvalidTransaction
             (if JS.truthy (default JUndefined
                              (({[ "Verb" := JNum (Int 0) ]} : gmap string jsval) !! "Verb"))
              then "Name is required" else "Verb is required")).
Proof.
  apply (validate_missing_verb_or_name {[ "Verb" := JNum (Int 0) ]}).
  left. vm_compute; reflexivity.
Defined.

Lemma dispatch_non_string_purchase_witness :
  exists message,
    dispatch (Cases.numbered "calculate" 7) Scenario.empty
    = (Throw (TypeError message), Scenario.empty).
Proof.
  apply (dispatch_non_string_purchase (Cases.numbered "calculate" 7) Scenario.empty);
    [right; left; reflexivity | left; exists (Int 7); reflexivity].
Defined.
